(** * crudexample: a connection-managed CRUD layer over one table

    Shallow embedding of [postgres_sql_connection.py] (class
    [PostgreSQLConnection]), [user_crud.py] (class [UserCRUD]) and
    [main.py] (the demonstration script).

    The SQLAlchemy engine is the only collaborator the code talks to.  It is
    kept abstract: a [Driver] is a record of the five calls the code makes
    ([engine.connect], [conn.execute], [conn.commit], [conn.rollback],
    [conn.close]) over an arbitrary world type, each of which either returns
    or raises.  The Python code is written once over any driver, in a small
    monad that threads the world, accumulates the chronological list of
    driver calls and carries Python's two ways out of a function (return,
    raise).  A reference engine ([Module RefEngine]) that interprets the
    statement text over an in-memory table with fault injection is the
    instance used for the properties that speak about stored rows.

    Logging calls are not modelled (they have no effect on control flow), and
    neither are the signals outside [Exception] (KeyboardInterrupt,
    SystemExit): every exception of the model is an instance of [Exception],
    which is what the two broad handlers of the source catch.  In [main.py]
    the console is the list of what was printed, and [print] is taken to
    succeed. *)

From Stdlib Require Import ZArith String Ascii List.
From stdpp Require Import base strings gmap list sorting pretty.

Open Scope string_scope.
Open Scope list_scope.

(** ** Python values *)

(** The values that flow through the layer: arguments of the CRUD methods,
    bound parameters and the cells of a result row. *)
Inductive pyval : Type :=
  | PyNone
  | PyInt (z : Z)
  | PyStr (s : string).

Global Instance pyval_eq_dec : EqDecision pyval.
Proof. solve_decision. Defined.

(** [x is not None] *)
Definition is_not_None (v : pyval) : bool :=
  match v with PyNone => false | _ => true end.

(** ** Exceptions *)

Inductive exc_class : Type :=
  | SQLAlchemyError   (* sqlalchemy.exc.SQLAlchemyError and its subclasses *)
  | TypeError         (* subscripting None *)
  | IndexError        (* row index out of range *)
  | OtherException.   (* any other subclass of Exception *)

Global Instance exc_class_eq_dec : EqDecision exc_class.
Proof. solve_decision. Defined.

Record exc : Type := Exc { exc_cls : exc_class; exc_msg : string }.

Global Instance exc_eq_dec : EqDecision exc.
Proof. solve_decision. Defined.

(** [isinstance(e, SQLAlchemyError)] and [isinstance(e, Exception)] *)
Definition isinstance_SQLAlchemyError (e : exc) : bool :=
  match exc_cls e with SQLAlchemyError => true | _ => false end.

Definition isinstance_Exception (e : exc) : bool := true.

(** A Python call either returns a value or raises. *)
Inductive res (A : Type) : Type :=
  | Ret (a : A)
  | Raise (e : exc).
Arguments Ret {A} a.
Arguments Raise {A} e.

Definition raised {A} (r : res A) : bool :=
  match r with Ret _ => false | Raise _ => true end.

(** ** The driver interface *)

(** Connection handles, bound parameters ([dict] from name to value), result
    rows ([Row], indexed by position) and the result object the code reads
    ([fetchone], iteration and [rowcount]). *)
Definition conn : Type := nat.
Abbreviation params := (gmap string pyval).
Definition row : Type := list pyval.

Record cursor : Type := Cursor { cur_rows : list row; cur_rowcount : Z }.

Record Driver (W : Type) : Type := {
  d_connect  : W -> W * res conn;
  d_execute  : conn -> string -> params -> W -> W * res cursor;
  d_commit   : conn -> W -> W * res unit;
  d_rollback : conn -> W -> W * res unit;
  d_close    : conn -> W -> W * res unit
}.
Arguments d_connect {W} _ _.
Arguments d_execute {W} _ _ _ _ _.
Arguments d_commit {W} _ _ _.
Arguments d_rollback {W} _ _ _.
Arguments d_close {W} _ _ _.

(** One entry per driver call, with what the call gave back. *)
Inductive event : Type :=
  | EConnect (r : res conn)
  | EExecute (c : conn) (q : string) (p : params) (r : res cursor)
  | ECommit (c : conn) (r : res unit)
  | ERollback (c : conn) (r : res unit)
  | EClose (c : conn) (r : res unit).

Definition trace : Type := list event.

(** The exception a driver call raised, if it did. *)
Definition ev_failure (ev : event) : option exc :=
  match ev with
  | EConnect (Raise e) | EExecute _ _ _ (Raise e) | ECommit _ (Raise e)
  | ERollback _ (Raise e) | EClose _ (Raise e) => Some e
  | _ => None
  end.

Definition ev_failed (ev : event) : bool :=
  match ev_failure ev with Some _ => true | None => false end.

(** Every failure recorded in the trace is an [SQLAlchemyError]. *)
Definition ev_sqla_or_ok (ev : event) : bool :=
  match ev_failure ev with Some e => isinstance_SQLAlchemyError e | None => true end.

Definition is_commit (ev : event) : bool :=
  match ev with ECommit _ _ => true | _ => false end.

Definition is_rollback (ev : event) : bool :=
  match ev with ERollback _ _ => true | _ => false end.

Definition is_execute (ev : event) : bool :=
  match ev with EExecute _ _ _ _ => true | _ => false end.

(** The statement texts handed to [conn.execute], in order. *)
Definition statement_texts (t : trace) : list string :=
  omap (fun ev => match ev with EExecute _ q _ _ => Some q | _ => None end) t.

(** The parameter dictionaries handed to [conn.execute], in order. *)
Definition statement_params (t : trace) : list params :=
  omap (fun ev => match ev with EExecute _ _ p _ => Some p | _ => None end) t.

(** ** The monad of the layer *)

Section Layer.

Context {W : Type} (drv : Driver W).

(** A computation takes the world and gives the new world, the driver calls
    it made and its outcome. *)
Definition M (A : Type) : Type := W -> W * trace * res A.

Definition ret {A} (a : A) : M A := fun w => (w, [], Ret a).

Definition raise {A} (e : exc) : M A := fun w => (w, [], Raise e).

Definition bind {A B} (m : M A) (k : A -> M B) : M B :=
  fun w =>
    match m w with
    | (w1, t1, Ret a) => let '(w2, t2, r) := k a w1 in (w2, t1 ++ t2, r)
    | (w1, t1, Raise e) => (w1, t1, Raise e)
    end.

Notation "x <~ m ;; k" := (bind m (fun x => k))
  (at level 100, m at next level, right associativity).
Notation "m ;;; k" := (bind m (fun _ => k))
  (at level 100, right associativity).

(** [try: m  except C1: h1  except C2: h2 ...]: the first clause whose class
    test accepts the exception runs; an exception raised by a handler is not
    offered to the later clauses. *)
Fixpoint select_handler {A} (hs : list ((exc -> bool) * (exc -> M A))) (e : exc)
  : option (M A) :=
  match hs with
  | [] => None
  | (accepts, h) :: hs' => if accepts e then Some (h e) else select_handler hs' e
  end.

Definition try_except {A} (m : M A) (hs : list ((exc -> bool) * (exc -> M A))) : M A :=
  fun w =>
    match m w with
    | (w1, t1, Ret a) => (w1, t1, Ret a)
    | (w1, t1, Raise e) =>
        match select_handler hs e with
        | Some h => let '(w2, t2, r) := h w1 in (w2, t1 ++ t2, r)
        | None => (w1, t1, Raise e)
        end
    end.

(** [try: m  finally: fin]: [fin] always runs; if it raises, its exception
    replaces the outcome of [m]. *)
Definition try_finally {A} (m : M A) (fin : M unit) : M A :=
  fun w =>
    let '(w1, t1, r1) := m w in
    let '(w2, t2, r2) := fin w1 in
    (w2, t1 ++ t2, match r2 with Ret _ => r1 | Raise e => Raise e end).

(** The five driver calls, each logged. *)
Definition connect : M conn :=
  fun w => let '(w', r) := d_connect drv w in (w', [EConnect r], r).

Definition execute (c : conn) (q : string) (p : params) : M cursor :=
  fun w => let '(w', r) := d_execute drv c q p w in (w', [EExecute c q p r], r).

Definition commit (c : conn) : M unit :=
  fun w => let '(w', r) := d_commit drv c w in (w', [ECommit c r], r).

Definition rollback (c : conn) : M unit :=
  fun w => let '(w', r) := d_rollback drv c w in (w', [ERollback c r], r).

Definition close (c : conn) : M unit :=
  fun w => let '(w', r) := d_close drv c w in (w', [EClose c r], r).

(** ** Reading a result *)

(** [result.fetchone()]: the first row, or [None]. *)
Definition fetchone (cur : cursor) : option row := head (cur_rows cur).

(** [x[i]] where [x] came from [fetchone()]: subscripting [None] is a
    [TypeError], an index past the end of the row an [IndexError]. *)
Definition subscript_None : exc :=
  Exc TypeError "'NoneType' object is not subscriptable".

Definition index_out_of_range : exc :=
  Exc IndexError "tuple index out of range".

Definition row_item (r : row) (i : nat) : M pyval :=
  match r !! i with
  | Some v => ret v
  | None => raise index_out_of_range
  end.

Definition fetched_item (o : option row) (i : nat) : M pyval :=
  match o with
  | Some r => row_item r i
  | None => raise subscript_None
  end.

(** Truth value of a row ([if row:]): a [Row] is a tuple, true when not
    empty. *)
Definition row_truth (r : row) : bool :=
  match r with [] => false | _ => true end.

(** ** postgres_sql_connection.py *)

(** The body of both [except] clauses of [get_connection]. *)
Definition rollback_and_reraise {A} (connection : option conn) (e : exc) : M A :=
  (match connection with
   | Some c => rollback c
   | None => ret tt
   end) ;;; raise e.

(** [PostgreSQLConnection.get_connection], used as
    [with self.get_connection() as conn: body].  [connection] starts as
    [None] and is set once [engine.connect()] has returned (a connection
    object is always true, so [if connection:] tests exactly that); the
    block under [with] runs at the [yield]; an exception it raises is thrown
    back in at the [yield]. *)
Definition get_connection {A} (body : conn -> M A) : M A :=
  fun w =>
    let '(w1, t1, r1) := connect w in
    let connection := match r1 with Ret c => Some c | Raise _ => None end in
    let '(w2, t2, r2) :=
      try_finally
        (try_except
           (match r1 with Ret c => body c | Raise e => raise e end)
           [ (isinstance_SQLAlchemyError, rollback_and_reraise connection);
             (isinstance_Exception, rollback_and_reraise connection) ])
        (match connection with
         | Some c => close c
         | None => ret tt
         end) w1 in
    (w2, t1 ++ t2, r2).

(** [PostgreSQLConnection.test_connection] *)
Definition test_connection : M bool :=
  try_except
    (get_connection (fun conn =>
       result <~ execute conn "SELECT version()" ∅ ;;
       version <~ fetched_item (fetchone result) 0 ;;
       ret true))
    [ (isinstance_Exception, fun e => ret false) ].

(** ** user_crud.py *)

(** The statement texts of the source, character for character; the
    triple-quoted ones keep their line breaks and indentation. *)
Definition nl : string := String "010"%char "".

Definition insert_text : string :=
  nl +:+ "                    INSERT INTO users (nombre, email, edad) " +:+
  nl +:+ "                    VALUES (:nombre, :email, :edad) " +:+
  nl +:+ "                    RETURNING id" +:+
  nl +:+ "                ".

Definition select_by_id_text : string :=
  "SELECT id, nombre, email, edad FROM users WHERE id = :user_id".

Definition select_all_text : string :=
  "SELECT id, nombre, email, edad FROM users ORDER BY id".

(** The f-string of [update_user]; [', '.join(updates)] is [String.concat]. *)
Definition update_text (updates : list string) : string :=
  nl +:+ "                    UPDATE users " +:+
  nl +:+ "                    SET " +:+ String.concat ", " updates +:+ " " +:+
  nl +:+ "                    WHERE id = :user_id" +:+
  nl +:+ "                ".

Definition delete_text : string := "DELETE FROM users WHERE id = :user_id".

(** The dictionary built from a row in [read_user] and [read_all_users]:
    [{'id': row[0], 'nombre': row[1], 'email': row[2], 'edad': row[3]}]. *)
Definition user_data (r : row) : M params :=
  v0 <~ row_item r 0 ;;
  v1 <~ row_item r 1 ;;
  v2 <~ row_item r 2 ;;
  v3 <~ row_item r 3 ;;
  ret (<["edad" := v3]> (<["email" := v2]> (<["nombre" := v1]> (<["id" := v0]> ∅)))).

(** [UserCRUD.create_user] *)
Definition create_user (nombre email edad : pyval) : M pyval :=
  try_except
    (get_connection (fun conn =>
       let query := insert_text in
       result <~ execute conn query
                   (<["edad" := edad]> (<["email" := email]> (<["nombre" := nombre]> ∅))) ;;
       commit conn ;;;
       user_id <~ fetched_item (fetchone result) 0 ;;
       ret user_id))
    [ (isinstance_SQLAlchemyError, fun e => ret PyNone) ].

(** [UserCRUD.read_user]: the dictionary, or [None]. *)
Definition read_user (user_id : pyval) : M (option params) :=
  try_except
    (get_connection (fun conn =>
       let query := select_by_id_text in
       result <~ execute conn query {[ "user_id" := user_id ]} ;;
       match fetchone result with
       | Some r =>
           if row_truth r
           then d <~ user_data r ;; ret (Some d)
           else ret None
       | None => ret None
       end))
    [ (isinstance_SQLAlchemyError, fun e => ret None) ].

(** The [for row in result] loop of [read_all_users], appending to [users]. *)
Fixpoint collect_users (rows : list row) (users : list params) : M (list params) :=
  match rows with
  | [] => ret users
  | r :: rest => d <~ user_data r ;; collect_users rest (users ++ [d])
  end.

(** [UserCRUD.read_all_users] *)
Definition read_all_users : M (list params) :=
  try_except
    (get_connection (fun conn =>
       let query := select_all_text in
       result <~ execute conn query ∅ ;;
       collect_users (cur_rows result) []))
    [ (isinstance_SQLAlchemyError, fun e => ret []) ].

(** Lines 150-163 of [update_user]: the assignment fragments [updates] and
    the bound parameters [params], grown one optional argument at a time. *)
Definition update_fields (user_id nombre email edad : pyval) : list string * params :=
  let updates : list string := [] in
  let params : params := {[ "user_id" := user_id ]} in
  let '(updates, params) :=
    if is_not_None nombre
    then (updates ++ ["nombre = :nombre"], <["nombre" := nombre]> params)
    else (updates, params) in
  let '(updates, params) :=
    if is_not_None email
    then (updates ++ ["email = :email"], <["email" := email]> params)
    else (updates, params) in
  let '(updates, params) :=
    if is_not_None edad
    then (updates ++ ["edad = :edad"], <["edad" := edad]> params)
    else (updates, params) in
  (updates, params).

(** [UserCRUD.update_user] *)
Definition update_user (user_id nombre email edad : pyval) : M bool :=
  try_except
    (let '(updates, params) := update_fields user_id nombre email edad in
     match updates with
     | [] => ret false
     | _ =>
         get_connection (fun conn =>
           let query := update_text updates in
           result <~ execute conn query params ;;
           commit conn ;;;
           if (0 <? cur_rowcount result)%Z then ret true else ret false)
     end)
    [ (isinstance_SQLAlchemyError, fun e => ret false) ].

(** [UserCRUD.delete_user] *)
Definition delete_user (user_id : pyval) : M bool :=
  try_except
    (get_connection (fun conn =>
       let query := delete_text in
       result <~ execute conn query {[ "user_id" := user_id ]} ;;
       commit conn ;;;
       if (0 <? cur_rowcount result)%Z then ret true else ret false))
    [ (isinstance_SQLAlchemyError, fun e => ret false) ].

(** ** The operations as one family *)

Inductive operation : Type :=
  | Probe
  | Create (nombre email edad : pyval)
  | Read (user_id : pyval)
  | ReadAll
  | Update (user_id nombre email edad : pyval)
  | Delete (user_id : pyval).

Inductive retval : Type :=
  | RBool (b : bool)
  | RVal (v : pyval)
  | RUser (u : option params)
  | RUsers (us : list params).

Definition fmap_M {A B} (f : A -> B) (m : M A) : M B :=
  fun w =>
    match m w with
    | (w1, t1, Ret a) => (w1, t1, Ret (f a))
    | (w1, t1, Raise e) => (w1, t1, Raise e)
    end.

Definition run (o : operation) : M retval :=
  match o with
  | Probe => fmap_M RBool test_connection
  | Create nombre email edad => fmap_M RVal (create_user nombre email edad)
  | Read user_id => fmap_M RUser (read_user user_id)
  | ReadAll => fmap_M RUsers read_all_users
  | Update user_id nombre email edad =>
      fmap_M RBool (update_user user_id nombre email edad)
  | Delete user_id => fmap_M RBool (delete_user user_id)
  end.

End Layer.

(** ** A reference engine

    An executable stand-in for the database behind the driver: one table
    [users] with an engine-assigned integer key, a transaction per lease
    (statements work on [working]; [commit] publishes it, [rollback] and
    [close] discard it), a statement interpreter that reads the statement
    text and takes values only from the bound parameters, and a fault plan:
    the n-th driver call fails with the n-th entry of [faults] when that is
    [Some e], and works when it is [None] or when the plan is used up. *)
Module RefEngine.

Record user : Type := User {
  u_id : Z;
  u_nombre : pyval;
  u_email : pyval;
  u_edad : pyval
}.

Record db : Type := Db {
  committed : list user;
  working : list user;
  next_id : Z;
  next_conn : nat;
  faults : list (option exc)
}.

(** *** Reading the statement text *)

Definition is_space (a : ascii) : bool :=
  bool_decide (a = " "%char) || bool_decide (a = "010"%char)
  || bool_decide (a = "009"%char) || bool_decide (a = "013"%char).

Definition is_punct (a : ascii) : bool :=
  bool_decide (a = ","%char) || bool_decide (a = "("%char)
  || bool_decide (a = ")"%char) || bool_decide (a = "="%char).

Definition flush (cur : string) (l : list string) : list string :=
  match cur with "" => l | _ => cur :: l end.

Fixpoint tokenize (s : string) (cur : string) : list string :=
  match s with
  | "" => flush cur []
  | String a s' =>
      if is_space a then flush cur (tokenize s' "")
      else if is_punct a then flush cur (String a "" :: tokenize s' "")
      else tokenize s' (cur +:+ String a "")
  end.

Inductive stmt : Type :=
  | SVersion
  | SInsert (cols : list string) (vals : list string)
  | SSelectById (p : string)
  | SSelectAll
  | SUpdate (sets : list (string * string)) (p : string)
  | SDelete (p : string).

(** [expect pre toks]: [toks] without its prefix [pre]. *)
Fixpoint expect (pre toks : list string) : option (list string) :=
  match pre, toks with
  | [], _ => Some toks
  | p :: pre', t :: toks' => if bool_decide (p = t) then expect pre' toks' else None
  | _ :: _, [] => None
  end.

(** A placeholder [:name]. *)
Definition placeholder (tok : string) : option string :=
  match tok with
  | String a name => if bool_decide (a = ":"%char) then Some name else None
  | "" => None
  end.

(** Comma-separated items up to the closing parenthesis. *)
Fixpoint items (toks : list string) : option (list string * list string) :=
  match toks with
  | x :: "," :: rest =>
      match items rest with
      | Some (xs, rest') => Some (x :: xs, rest')
      | None => None
      end
  | x :: ")" :: rest => Some ([x], rest)
  | _ => None
  end.

(** Comma-separated [column = :name] assignments up to [WHERE]. *)
Fixpoint assignments (toks : list string)
  : option (list (string * string) * list string) :=
  match toks with
  | col :: "=" :: ph :: rest =>
      match placeholder ph with
      | None => None
      | Some name =>
          match rest with
          | "," :: rest' =>
              match assignments rest' with
              | Some (xs, rest'') => Some ((col, name) :: xs, rest'')
              | None => None
              end
          | _ => Some ([(col, name)], rest)
          end
      end
  | _ => None
  end.

Definition where_id (toks : list string) : option string :=
  match expect ["WHERE"; "id"; "="] toks with
  | Some [ph] => placeholder ph
  | _ => None
  end.

Definition parse_tokens (toks : list string) : option stmt :=
  if bool_decide (toks = ["SELECT"; "version"; "("; ")"]) then Some SVersion
  else
    match expect ["SELECT"; "id"; ","; "nombre"; ","; "email"; ","; "edad";
                  "FROM"; "users"] toks with
    | Some rest =>
        if bool_decide (rest = ["ORDER"; "BY"; "id"]) then Some SSelectAll
        else SSelectById <$> where_id rest
    | None =>
        match expect ["INSERT"; "INTO"; "users"; "("] toks with
        | Some rest =>
            '(cols, rest1) ← items rest;
            rest2 ← expect ["VALUES"; "("] rest1;
            '(phs, rest3) ← items rest2;
            vals ← mapM placeholder phs;
            if bool_decide (rest3 = ["RETURNING"; "id"])
            then Some (SInsert cols vals) else None
        | None =>
            match expect ["UPDATE"; "users"; "SET"] toks with
            | Some rest =>
                '(sets, rest1) ← assignments rest;
                SUpdate sets <$> where_id rest1
            | None =>
                rest ← expect ["DELETE"; "FROM"; "users"] toks;
                SDelete <$> where_id rest
            end
        end
    end.

Definition parse (q : string) : option stmt := parse_tokens (tokenize q "").

(** *** Running a statement *)

Definition engine_error (msg : string) : exc := Exc SQLAlchemyError msg.

Definition user_row (u : user) : row :=
  [PyInt (u_id u); u_nombre u; u_email u; u_edad u].

(** The value compared with the key column: an integer selects the rows
    with that key, NULL selects none, text is rejected (no coercion). *)
Definition key_of (v : pyval) : res (option Z) :=
  match v with
  | PyInt z => Ret (Some z)
  | PyNone => Ret None
  | PyStr _ => Raise (engine_error "invalid input syntax for type integer")
  end.

Definition has_key (k : option Z) (u : user) : bool :=
  match k with
  | Some z => bool_decide (u_id u = z)
  | None => false
  end.

Definition assignable (col : string) : bool :=
  bool_decide (col = "nombre") || bool_decide (col = "email")
  || bool_decide (col = "edad").

Definition set_column (col : string) (v : pyval) (u : user) : user :=
  if bool_decide (col = "nombre") then User (u_id u) v (u_email u) (u_edad u)
  else if bool_decide (col = "email") then User (u_id u) (u_nombre u) v (u_edad u)
  else if bool_decide (col = "edad") then User (u_id u) (u_nombre u) (u_email u) v
  else u.

Definition set_columns (sets : list (string * pyval)) (u : user) : user :=
  foldl (fun acc cv => set_column (fst cv) (snd cv) acc) u sets.

(** The values bound to the placeholders of an assignment list. *)
Definition bind_sets (p : params) (sets : list (string * string))
  : option (list (string * pyval)) :=
  mapM (fun cn => v ← p !! snd cn; Some (fst cn, v)) sets.

Definition id_le (u v : user) : Prop := (u_id u <= u_id v)%Z.

Global Instance id_le_dec : RelDecision id_le.
Proof. intros u v. unfold id_le. apply _. Defined.

Global Instance id_le_total : Total id_le.
Proof. intros u v. unfold id_le. lia. Qed.

Definition with_working (d : db) (t : list user) : db :=
  Db (committed d) t (next_id d) (next_conn d) (faults d).

Definition exec_stmt (s : stmt) (p : params) (d : db) : db * res cursor :=
  match s with
  | SVersion => (d, Ret (Cursor [[PyStr "PostgreSQL (reference engine)"]] 1))
  | SInsert cols vals =>
      if bool_decide (length cols = length vals) && forallb assignable cols
      then
        match bind_sets p (zip cols vals) with
        | Some sets =>
            let u := set_columns sets (User (next_id d) PyNone PyNone PyNone) in
            (Db (committed d) (working d ++ [u]) (next_id d + 1)%Z
                (next_conn d) (faults d),
             Ret (Cursor [[PyInt (u_id u)]] 1))
        | None => (d, Raise (engine_error "a value is required for a bind parameter"))
        end
      else (d, Raise (engine_error "column does not exist"))
  | SSelectById name =>
      match p !! name with
      | None => (d, Raise (engine_error "a value is required for a bind parameter"))
      | Some v =>
          match key_of v with
          | Raise e => (d, Raise e)
          | Ret k =>
              let found := filter (fun u => has_key k u = true) (working d) in
              (d, Ret (Cursor (user_row <$> found) (Z.of_nat (length found))))
          end
      end
  | SSelectAll =>
      let sorted := merge_sort id_le (working d) in
      (d, Ret (Cursor (user_row <$> sorted) (Z.of_nat (length sorted))))
  | SUpdate sets name =>
      if forallb assignable (fst <$> sets)
      then
        match bind_sets p sets, p !! name with
        | Some bound, Some v =>
            match key_of v with
            | Raise e => (d, Raise e)
            | Ret k =>
                let hit := filter (fun u => has_key k u = true) (working d) in
                (with_working d
                   ((fun u => if has_key k u then set_columns bound u else u)
                      <$> working d),
                 Ret (Cursor [] (Z.of_nat (length hit))))
            end
        | _, _ => (d, Raise (engine_error "a value is required for a bind parameter"))
        end
      else (d, Raise (engine_error "column does not exist"))
  | SDelete name =>
      match p !! name with
      | None => (d, Raise (engine_error "a value is required for a bind parameter"))
      | Some v =>
          match key_of v with
          | Raise e => (d, Raise e)
          | Ret k =>
              let hit := filter (fun u => has_key k u = true) (working d) in
              (with_working d (filter (fun u => has_key k u = false) (working d)),
               Ret (Cursor [] (Z.of_nat (length hit))))
          end
      end
  end.

(** *** The driver *)

(** Consume one entry of the fault plan; the call runs only if the entry
    does not make it fail. *)
Definition step {A} (f : db -> db * res A) (d : db) : db * res A :=
  match faults d with
  | [] => f d
  | None :: rest =>
      f (Db (committed d) (working d) (next_id d) (next_conn d) rest)
  | Some e :: rest =>
      (Db (committed d) (working d) (next_id d) (next_conn d) rest, Raise e)
  end.

Definition connect : db -> db * res conn :=
  step (fun d =>
    (Db (committed d) (committed d) (next_id d) (S (next_conn d)) (faults d),
     Ret (next_conn d))).

Definition execute (c : conn) (q : string) (p : params) : db -> db * res cursor :=
  step (fun d =>
    match parse q with
    | Some s => exec_stmt s p d
    | None => (d, Raise (engine_error "syntax error"))
    end).

Definition commit (c : conn) : db -> db * res unit :=
  step (fun d =>
    (Db (working d) (working d) (next_id d) (next_conn d) (faults d), Ret tt)).

Definition discard (d : db) : db * res unit :=
  (Db (committed d) (committed d) (next_id d) (next_conn d) (faults d), Ret tt).

Definition rollback (c : conn) : db -> db * res unit := step discard.

Definition close (c : conn) : db -> db * res unit := step discard.

Definition driver : Driver db :=
  {| d_connect := connect;
     d_execute := execute;
     d_commit := commit;
     d_rollback := rollback;
     d_close := close |}.

(** A database at rest: the given rows, nothing pending, no fault planned. *)
Definition at_rest (rows : list user) (nid : Z) : db := Db rows rows nid 0 [].

(** The same database with a fault plan. *)
Definition with_faults (rows : list user) (nid : Z) (fs : list (option exc)) : db :=
  Db rows rows nid 0 fs.

End RefEngine.

(** ** Vocabulary of the properties *)

(** What the release block under [finally] leaves as outcome. *)
Definition after_close {A} (r : res A) (rc : res unit) : res A :=
  match rc with Ret _ => r | Raise e => Raise e end.

(** What the [except] clause leaves: the rollback's exception if it failed,
    the one being handled otherwise. *)
Definition after_rollback {A} (e : exc) (rr : res unit) : res A :=
  match rr with Ret _ => Raise e | Raise e' => Raise e' end.

(** The three components of a run. *)
Definition world_of {W A} (x : W * trace * res A) : W := x.1.1.
Definition trace_of {W A} (x : W * trace * res A) : trace := x.1.2.
Definition result_of {W A} (x : W * trace * res A) : res A := x.2.

Definition starts_with_rollback (t : trace) : bool :=
  match t with ERollback _ _ :: _ => true | _ => false end.

(** The calls of one lease on handle [c], after the connect: statements and
    commits on [c], none after one that failed; a failed one is followed at
    once by a rollback on [c]; a rollback is followed by the close; the
    close on [c] is the last call. *)
Fixpoint lease_tail (c : conn) (t : trace) : bool :=
  match t with
  | [] => false
  | ev :: rest =>
      match ev with
      | EConnect _ => false
      | EExecute c' _ _ _ | ECommit c' _ =>
          bool_decide (c' = c) && lease_tail c rest
          && (negb (ev_failed ev) || starts_with_rollback rest)
      | ERollback c' _ =>
          bool_decide (c' = c)
          && match rest with [EClose c'' _] => bool_decide (c'' = c) | _ => false end
      | EClose c' _ => bool_decide (c' = c) && bool_decide (rest = [])
      end
  end.

(** The calls of one operation: none at all, a connect that failed and
    nothing else, or a connect followed by a well-formed lease. *)
Definition lease_ok (t : trace) : bool :=
  match t with
  | [] => true
  | EConnect (Raise _) :: rest => bool_decide (rest = [])
  | EConnect (Ret c) :: rest => lease_tail c rest
  | _ => false
  end.

(** What the liveness query of [test_connection] answered: the first
    column of the first row of the result of the second call. *)
Definition liveness_answer (t : trace) : option pyval :=
  match t !! 1 with
  | Some (EExecute _ _ _ (Ret cur)) => r ← fetchone cur; r !! 0
  | _ => None
  end.

(** No driver call failed. *)
Definition no_failure (t : trace) : bool := forallb (fun ev => negb (ev_failed ev)) t.

(** The value each operation returns from its [except] clause. *)
Definition failure_value (o : operation) : retval :=
  match o with
  | Probe => RBool false
  | Create _ _ _ => RVal PyNone
  | Read _ => RUser None
  | ReadAll => RUsers []
  | Update _ _ _ _ => RBool false
  | Delete _ => RBool false
  end.

(** Two calls of the same operation that supply the same optional fields. *)
Definition same_presence (o1 o2 : operation) : Prop :=
  match o1, o2 with
  | Probe, Probe | ReadAll, ReadAll => True
  | Create _ _ _, Create _ _ _ => True
  | Read _, Read _ | Delete _, Delete _ => True
  | Update _ n1 e1 a1, Update _ n2 e2 a2 =>
      is_not_None n1 = is_not_None n2 ∧ is_not_None e1 = is_not_None e2
      ∧ is_not_None a1 = is_not_None a2
  | _, _ => False
  end.

(** The values a call supplies, under the names of the method's
    arguments: all of them for [create_user], the key for the methods that
    take one, and the key with the arguments that are not [None] for
    [update_user]. *)
Definition supplied (name : string) (v : pyval) : list (string * pyval) :=
  if is_not_None v then [(name, v)] else [].

Definition supplied_values (o : operation) : list (string * pyval) :=
  match o with
  | Probe | ReadAll => []
  | Create n e a => [("nombre", n); ("email", e); ("edad", a)]
  | Read i | Delete i => [("user_id", i)]
  | Update i n e a =>
      ("user_id", i) :: supplied "nombre" n ++ supplied "email" e ++ supplied "edad" a
  end.

(** The columns an [update_user] call supplies, in argument order. *)
Definition supplied_columns (nombre email edad : pyval) : list string :=
  fst <$> (supplied "nombre" nombre ++ supplied "email" email ++ supplied "edad" edad).

(** The statement text of an operation, as a function of which optional
    fields the call supplies. *)
Definition statement_text (o : operation) : string :=
  match o with
  | Probe => "SELECT version()"
  | Create _ _ _ => insert_text
  | Read _ => select_by_id_text
  | ReadAll => select_all_text
  | Update _ n e a =>
      update_text ((fun c => c +:+ " = :" +:+ c) <$> supplied_columns n e a)
  | Delete _ => delete_text
  end.

(** The dictionary of a row with at least four columns. *)
Definition dict_of_row (r : row) : option params :=
  v0 ← r !! 0; v1 ← r !! 1; v2 ← r !! 2; v3 ← r !! 3;
  Some (<["edad" := v3]> (<["email" := v2]> (<["nombre" := v1]> (<["id" := v0]> ∅)))).

(** The dictionary of a stored row of the reference engine. *)
Definition user_dict (u : RefEngine.user) : params :=
  <["edad" := RefEngine.u_edad u]>
    (<["email" := RefEngine.u_email u]>
       (<["nombre" := RefEngine.u_nombre u]>
          (<["id" := PyInt (RefEngine.u_id u)]> ∅))).

(** A stored row before and after an update that supplies [nombre], [email]
    and [edad] (each possibly [None]): the key and every column whose
    argument is [None] are the same. *)
Definition unsupplied_kept (nombre email edad : pyval) (u u' : RefEngine.user) : Prop :=
  RefEngine.u_id u' = RefEngine.u_id u
  ∧ (nombre = PyNone → RefEngine.u_nombre u' = RefEngine.u_nombre u)
  ∧ (email = PyNone → RefEngine.u_email u' = RefEngine.u_email u)
  ∧ (edad = PyNone → RefEngine.u_edad u' = RefEngine.u_edad u).

(** The row an update makes of a row it matches. *)
Definition with_supplied (nombre email edad : pyval) (u : RefEngine.user)
  : RefEngine.user :=
  RefEngine.User (RefEngine.u_id u)
    (if is_not_None nombre then nombre else RefEngine.u_nombre u)
    (if is_not_None email then email else RefEngine.u_email u)
    (if is_not_None edad then edad else RefEngine.u_edad u).

(** Some stored row has key [i]. *)
Definition key_present (i : Z) (rows : list RefEngine.user) : bool :=
  existsb (fun u => bool_decide (RefEngine.u_id u = i)) rows.

(** [m] keeps [P]: from a world where [P] holds it leads to one where [P]
    holds, whether it returns or raises. *)
Definition keeps {W A : Type} (P : W -> Prop) (m : M A) : Prop :=
  ∀ w, P w → P (world_of (m w)).

(** The table of the reference engine, committed and pending, against the
    rows it started from: keys and unsupplied columns are the same. *)
Definition frame_inv (rows : list RefEngine.user) (n e a : pyval) (d : RefEngine.db) : Prop :=
  Forall2 (unsupplied_kept n e a) rows (RefEngine.committed d)
  ∧ Forall2 (unsupplied_kept n e a) rows (RefEngine.working d).

(** The calls of [main.py], in order, on the reference engine with an empty
    table whose next key is 1. *)
Definition demo_1 :=
  create_user RefEngine.driver (PyStr "Juan") (PyStr "juan@email.com") (PyInt 30)
    (RefEngine.at_rest [] 1).
Definition demo_2 :=
  create_user RefEngine.driver (PyStr "Maria") (PyStr "maria@email.com") (PyInt 25)
    (world_of demo_1).
Definition demo_3 :=
  create_user RefEngine.driver (PyStr "Carlos") (PyStr "carlos@email.com") (PyInt 35)
    (world_of demo_2).
Definition demo_4 :=
  update_user RefEngine.driver (PyInt 2) (PyStr "Maria F") PyNone (PyInt 26)
    (world_of demo_3).
Definition demo_5 := read_user RefEngine.driver (PyInt 2) (world_of demo_4).
Definition demo_6 := delete_user RefEngine.driver (PyInt 3) (world_of demo_5).
Definition demo_7 := read_all_users RefEngine.driver (world_of demo_6).

(** ** postgres_sql_connection.py: the constructor *)

(** The keyword arguments [_create_engine] gives to [create_engine]. *)
Record pool_options : Type := PoolOptions {
  pool_size : Z;
  max_overflow : Z;
  pool_timeout : Z;
  pool_recycle : Z;
  echo : bool
}.

(** The attributes of a [PostgreSQLConnection] once [__init__] has
    returned; [engine] is the driver the methods call. *)
Record PostgreSQLConnection (W : Type) : Type := {
  host : string;
  port : Z;
  database : string;
  username : string;
  password : string;
  connection_url : string;
  engine : Driver W
}.
Arguments host {W} _.
Arguments port {W} _.
Arguments database {W} _.
Arguments username {W} _.
Arguments password {W} _.
Arguments connection_url {W} _.
Arguments engine {W} _.

Section Constructor.

Context {W : Type}.

(** SQLAlchemy's [create_engine], which gives an engine or raises. *)
Variable create_engine : string -> pool_options -> res (Driver W).

(** [PostgreSQLConnection._create_engine]: the handler logs and raises the
    exception again. *)
Definition _create_engine (connection_url : string) : res (Driver W) :=
  match create_engine connection_url
          {| pool_size := 10; max_overflow := 20; pool_timeout := 30;
             pool_recycle := 3600; echo := false |} with
  | Ret eng => Ret eng
  | Raise e => Raise e
  end.

(** [PostgreSQLConnection.__init__]; the f-string formats the integer
    [port] in decimal. *)
Definition PostgreSQLConnection_init
  (host : string) (port : Z) (database username password : string)
  : res (PostgreSQLConnection W) :=
  let connection_url :=
    "postgresql+psycopg2://" +:+ username +:+ ":" +:+ password +:+ "@"
    +:+ host +:+ ":" +:+ pretty port +:+ "/" +:+ database in
  match _create_engine connection_url with
  | Ret eng =>
      Ret {| host := host; port := port; database := database;
             username := username; password := password;
             connection_url := connection_url; engine := eng |}
  | Raise e => Raise e
  end.

End Constructor.

(** ** main.py *)

(** What [print] is given: a literal, an f-string around a dictionary or
    [None], an f-string around a value. *)
Inductive printed : Type :=
  | PText (s : string)
  | PDict (label : string) (d : option params)
  | PVal (before : string) (v : pyval) (after : string).

(** The engine with the console beside it: the driver calls leave what
    was printed as it is. *)
Definition with_console {W : Type} (drv : Driver W) : Driver (W * list printed) :=
  {| d_connect := fun s => let '(w', r) := d_connect drv s.1 in ((w', s.2), r);
     d_execute := fun c q p s =>
       let '(w', r) := d_execute drv c q p s.1 in ((w', s.2), r);
     d_commit := fun c s => let '(w', r) := d_commit drv c s.1 in ((w', s.2), r);
     d_rollback := fun c s => let '(w', r) := d_rollback drv c s.1 in ((w', s.2), r);
     d_close := fun c s => let '(w', r) := d_close drv c s.1 in ((w', s.2), r) |}.

(** [print(x)], taken to succeed. *)
Definition print {W : Type} (x : printed) : @M (W * list printed) unit :=
  fun s => ((s.1, s.2 ++ [x]), [], Ret tt).

(** Truth value of a value ([if user1_id:]) and of what [read_user]
    returned ([if user:]). *)
Definition truth (v : pyval) : bool :=
  match v with
  | PyNone => false
  | PyInt z => negb (z =? 0)%Z
  | PyStr s => negb (String.eqb s "")
  end.

Definition dict_truth (d : option params) : bool :=
  match d with
  | None => false
  | Some m => negb (bool_decide (m = ∅))
  end.

Section Main.

Context {W : Type}.

Variable create_engine : string -> pool_options -> res (Driver W).

Local Notation "x <~ m ;; k" := (bind m (fun x => k))
  (at level 100, m at next level, right associativity).
Local Notation "m ;;; k" := (bind m (fun _ => k))
  (at level 100, right associativity).

(** [for user in users: print(f"  - {user}")] *)
Fixpoint print_users (users : list params) : @M (W * list printed) unit :=
  match users with
  | [] => ret tt
  | user :: rest => print (PDict "  - " (Some user)) ;;; print_users rest
  end.

(** [main()]; [UserCRUD(db)] only stores [db]. *)
Definition main : @M (W * list printed) unit :=
  try_except
    (match PostgreSQLConnection_init create_engine
             "localhost" 5432 "testdb" "postgres" "admin1234" with
     | Raise e => raise e
     | Ret db =>
         let drv := with_console (engine db) in
         ok <~ test_connection drv ;;
         if negb ok then ret tt
         else
           print (PText (nl +:+ "=== DEMOSTRACIÓN CRUD ===")) ;;;
           print (PText (nl +:+ "1. Creando usuarios...")) ;;;
           user1_id <~ create_user drv
                         (PyStr "Juan Pérez") (PyStr "juan@email.com") (PyInt 30) ;;
           user2_id <~ create_user drv
                         (PyStr "María García") (PyStr "maria@email.com") (PyInt 25) ;;
           user3_id <~ create_user drv
                         (PyStr "Carlos López") (PyStr "carlos@email.com") (PyInt 35) ;;
           print (PText (nl +:+ "2. Leyendo usuario específico...")) ;;;
           (if truth user1_id
            then user <~ read_user drv user1_id ;;
                 if dict_truth user
                 then print (PDict "Usuario encontrado: " user)
                 else ret tt
            else ret tt) ;;;
           print (PText (nl +:+ "3. Leyendo todos los usuarios...")) ;;;
           all_users <~ read_all_users drv ;;
           print_users all_users ;;;
           print (PText (nl +:+ "4. Actualizando usuario...")) ;;;
           (if truth user2_id
            then success <~ update_user drv user2_id
                              (PyStr "María Fernández") PyNone (PyInt 26) ;;
                 if success
                 then updated_user <~ read_user drv user2_id ;;
                      print (PDict "Usuario actualizado: " updated_user)
                 else ret tt
            else ret tt) ;;;
           print (PText (nl +:+ "5. Eliminando usuario...")) ;;;
           (if truth user3_id
            then success <~ delete_user drv user3_id ;;
                 if success
                 then print (PVal "Usuario " user3_id " eliminado exitosamente")
                 else ret tt
            else ret tt) ;;;
           print (PText (nl +:+ "6. Usuarios restantes:")) ;;;
           final_users <~ read_all_users drv ;;
           print_users final_users
     end)
    [ (isinstance_Exception, fun e => ret tt) ].

End Main.

(** A run of the layer seen beside a console that it leaves as it is. *)
Definition beside {W A : Type} (out : list printed) (x : W * trace * res A)
  : (W * list printed) * trace * res A :=
  ((x.1.1, out), x.1.2, x.2).

(** [m'], over the engine with the console, does what [m] does over the
    engine and prints nothing. *)
Definition silent {W A : Type} (m' : @M (W * list printed) A) (m : @M W A) : Prop :=
  ∀ w out, m' (w, out) = beside out (m w).

(** The calls of a sequence of operations: a connection is asked for only
    when none is open, every other call is on the connection that is open,
    and at the end none is open. *)
Fixpoint sequential (opened : option conn) (t : trace) : bool :=
  match t with
  | [] => match opened with None => true | Some _ => false end
  | ev :: rest =>
      match opened, ev with
      | None, EConnect (Ret c) => sequential (Some c) rest
      | None, EConnect (Raise _) => sequential None rest
      | Some c, EExecute c' _ _ _ | Some c, ECommit c' _
      | Some c, ERollback c' _ =>
          bool_decide (c' = c) && sequential (Some c) rest
      | Some c, EClose c' _ => bool_decide (c' = c) && sequential None rest
      | _, _ => false
      end
  end.

(** Every run of [m] leaves a sequential trace. *)
Definition tidy {W A : Type} (m : @M W A) : Prop :=
  ∀ w, sequential None (trace_of (m w)) = true.

(** ** Vocabulary of the further properties *)

Definition is_connect (ev : event) : bool :=
  match ev with EConnect _ => true | _ => false end.

(** The number of calls of one kind in a trace. *)
Definition calls (kind : event -> bool) (t : trace) : nat :=
  length (List.filter kind t).

(** A commit that went through. *)
Definition commit_done (ev : event) : bool :=
  match ev with ECommit _ (Ret _) => true | _ => false end.

(** A statement that went through. *)
Definition execute_done (ev : event) : bool :=
  match ev with EExecute _ _ _ (Ret _) => true | _ => false end.

(** The operations that only read. *)
Definition read_only (o : operation) : bool :=
  match o with Probe | Read _ | ReadAll => true | _ => false end.

(** The exceptions an operation can raise by itself, from the subscripts
    it applies to a result: [fetchone()[0]] in [create_user], [row[0]] to
    [row[3]] in [read_user] and [read_all_users]. *)
Definition own_exceptions (o : operation) : list exc :=
  match o with
  | Create _ _ _ => [subscript_None; index_out_of_range]
  | Read _ | ReadAll => [index_out_of_range]
  | Probe | Update _ _ _ _ | Delete _ => []
  end.

(** A result that reports success of a write: [True] from [update_user] or
    [delete_user], a value other than [None] from [create_user]. *)
Definition reports_success (o : operation) (r : res retval) : bool :=
  match o, r with
  | Create _ _ _, Ret (RVal v) => is_not_None v
  | Update _ _ _ _, Ret (RBool b) | Delete _, Ret (RBool b) => b
  | _, _ => false
  end.

(** The reference engine between two calls: the given rows, nothing
    pending, no fault planned, [k] connections handed out so far. *)
Definition settled (rows : list RefEngine.user) (nid : Z) (k : nat) : RefEngine.db :=
  RefEngine.Db rows rows nid k [].

(** * Properties *)

(** ** Laws of the layer *)

Section Laws.

Context {W : Type} (drv : Driver W).

(** [get_connection] spelled out on the three ways a lease goes: no
    connection, block left normally, block left by an exception. *)
Lemma get_connection_unfold {A} (body : conn -> M A) (w : W) :
  get_connection drv body w =
    match d_connect drv w with
    | (w1, Raise e) => (w1, [EConnect (Raise e)], Raise e)
    | (w1, Ret c) =>
        match body c w1 with
        | (w2, tb, Ret a) =>
            let '(w3, rc) := d_close drv c w2 in
            (w3, EConnect (Ret c) :: tb ++ [EClose c rc], after_close (Ret a) rc)
        | (w2, tb, Raise e) =>
            let '(w3, rr) := d_rollback drv c w2 in
            let '(w4, rc) := d_close drv c w3 in
            (w4, EConnect (Ret c) :: tb ++ [ERollback c rr; EClose c rc],
             after_close (after_rollback e rr) rc)
        end
    end.
Proof.
  unfold get_connection, try_finally, try_except, rollback_and_reraise, bind,
    ret, raise, connect, close, rollback.
  destruct (d_connect drv w) as [w1 [c|e]]; cbn.
  - destruct (body c w1) as [[w2 tb] [a|e]]; cbn.
    + destruct (d_close drv c w2) as [w3 rc]; cbn. by rewrite ?app_nil_r.
    + destruct (isinstance_SQLAlchemyError e); cbn;
        destruct (d_rollback drv c w2) as [w3 [[]|e1]]; cbn;
        destruct (d_close drv c w3) as [w4 rc]; cbn;
        by rewrite ?app_nil_r, <- ?app_assoc.
  - by destruct (isinstance_SQLAlchemyError e).
Qed.

(** Building the dictionaries makes no driver call. *)
Lemma user_data_pure (r : row) (w : W) :
  ∃ o : res params, user_data r w = (w, [], o).
Proof.
  unfold user_data, row_item, bind, ret, raise.
  destruct (r !! 0); [|by eexists]. destruct (r !! 1); [|by eexists].
  destruct (r !! 2); [|by eexists]. destruct (r !! 3); by eexists.
Qed.

Lemma collect_users_pure (rows : list row) (acc : list params) (w : W) :
  ∃ o : res (list params), collect_users rows acc w = (w, [], o).
Proof.
  revert acc. induction rows as [|r rows IH]; intros acc; cbn.
  - by eexists.
  - unfold bind. destruct (user_data_pure r w) as [[d|e] ->].
    + destruct (IH (acc ++ [d])) as [o ->]. by eexists.
    + by eexists.
Qed.

End Laws.

(** Case analysis on everything an operation branches on. *)
Ltac pure_steps :=
  repeat match goal with
    | |- context [collect_users ?rs ?acc ?w] =>
        let o := fresh "o" in destruct (collect_users_pure rs acc w) as [o ->]
    | |- context [user_data ?r ?w] =>
        let o := fresh "o" in destruct (user_data_pure r w) as [o ->]
    | H : context [collect_users ?rs ?acc ?w] |- _ =>
        let o := fresh "o" in let E := fresh in
        destruct (collect_users_pure rs acc w) as [o E]; rewrite E in H; clear E
    | H : context [user_data ?r ?w] |- _ =>
        let o := fresh "o" in let E := fresh in
        destruct (user_data_pure r w) as [o E]; rewrite E in H; clear E
    end.

Ltac op_cases :=
  cbn zeta;
  unfold run, fmap_M, trace_of, result_of, world_of, test_connection,
    create_user, read_user, read_all_users, update_user, delete_user,
    try_except;
  repeat match goal with
    | |- context [update_fields ?i ?n ?e ?a] =>
        let E := fresh "Hfields" in
        destruct (update_fields i n e a) as [[|??] ?] eqn:E
    end;
  rewrite ?get_connection_unfold;
  unfold bind, execute, commit, fetched_item, row_item, ret, raise;
  repeat (pure_steps; case_match; simplify_eq/=; try done);
  unfold after_close, after_rollback in *;
  repeat (case_match; simplify_eq/=; try done).

(** Every operation leaves a well-formed lease behind. *)
Lemma run_lease_ok {W : Type} (drv : Driver W) (o : operation) (w : W) :
  lease_ok (trace_of (run drv o w)) = true.
Proof.
  destruct o; op_cases; rewrite ?bool_decide_true; done.
Qed.

(** When a driver call failed and every failure was an [SQLAlchemyError],
    the operation returns the value of its [except] clause. *)
Lemma run_failure_value {W : Type} (drv : Driver W) (o : operation) (w : W) :
  existsb ev_failed (trace_of (run drv o w)) = true →
  forallb ev_sqla_or_ok (trace_of (run drv o w)) = true →
  result_of (run drv o w) = Ret (failure_value o).
Proof.
  destruct o; op_cases.
  all: rewrite ?existsb_app, ?forallb_app; cbn.
  all: unfold ev_sqla_or_ok; cbn; intros; simplify_eq/=.
  all: repeat match goal with
         | H : _ && _ = true |- _ => apply andb_prop in H as [? ?]
         end; congruence.
Qed.

(** What [update_fields] builds: one fragment [col = :col] per supplied
    column, and the key with the supplied values, bound by name. *)
Lemma update_fields_spec (i n e a : pyval) :
  update_fields i n e a =
    ((fun c => c +:+ " = :" +:+ c) <$> supplied_columns n e a,
     list_to_map (supplied_values (Update i n e a))).
Proof. destruct n, e, a; reflexivity. Qed.

Lemma supplied_columns_nil (n e a : pyval) :
  supplied_columns n e a = [] ↔ n = PyNone ∧ e = PyNone ∧ a = PyNone.
Proof. destruct n, e, a; cbn; split; first [done | intros (? & ? & ?); done]. Qed.

(** Every statement an operation hands to the driver has the text and the
    parameters that belong to the operation. *)
Lemma run_statements {W : Type} (drv : Driver W) (o : operation) (w : W) :
  Forall (fun q => q = statement_text o) (statement_texts (trace_of (run drv o w)))
  ∧ Forall (fun p => p = list_to_map (supplied_values o))
      (statement_params (trace_of (run drv o w))).
Proof.
  destruct o; cbn [run statement_text];
    try match goal with
      | |- context [update_user _ ?i ?n ?e ?a] =>
          unfold update_user; rewrite (update_fields_spec i n e a);
          destruct (supplied_columns n e a) eqn:Hcols; cbn [fmap list_fmap]
      end.
  all: op_cases.
  all: unfold statement_texts, statement_params;
    rewrite ?omap_app; cbn; split; repeat constructor.
Qed.

(** The statement text is a function of which optional fields are there. *)
Lemma statement_text_presence (o1 o2 : operation) :
  same_presence o1 o2 → statement_text o1 = statement_text o2.
Proof.
  destruct o1, o2; cbn [same_presence statement_text]; try done.
  intros [Hn [He Ha]]. unfold supplied_columns, supplied.
  rewrite Hn, He, Ha.
  by destruct (is_not_None nombre0), (is_not_None email0), (is_not_None edad0).
Qed.

(** ** The paths on which every driver call works *)

Section Paths.

Context {W : Type} (drv : Driver W).

Lemma user_data_dict (r : row) (w : W) :
  user_data r w =
    (w, [], match dict_of_row r with
            | Some d => Ret d
            | None => Raise index_out_of_range
            end).
Proof.
  unfold user_data, dict_of_row, row_item, bind, ret, raise.
  destruct (r !! 0); [|done]. destruct (r !! 1); [|done].
  destruct (r !! 2); [|done]. by destruct (r !! 3).
Qed.

Lemma collect_users_dicts (rows : list row) (ds acc : list params) (w : W) :
  mapM dict_of_row rows = Some ds →
  collect_users rows acc w = (w, [], Ret (acc ++ ds)).
Proof.
  intros Hds. apply mapM_Some in Hds. revert acc.
  induction Hds as [|r d rows ds Hd _ IH]; intros acc; cbn.
  - by rewrite app_nil_r.
  - unfold bind. rewrite user_data_dict, Hd, IH. by rewrite <- app_assoc.
Qed.

Lemma create_user_path (n e a : pyval) w w1 c w2 cur w3 w4 v rest :
  d_connect drv w = (w1, Ret c) →
  d_execute drv c insert_text
    (<["edad" := a]> (<["email" := e]> (<["nombre" := n]> ∅))) w1 = (w2, Ret cur) →
  d_commit drv c w2 = (w3, Ret tt) →
  fetchone cur = Some (v :: rest) →
  d_close drv c w3 = (w4, Ret tt) →
  create_user drv n e a w =
    (w4, [EConnect (Ret c);
          EExecute c insert_text
            (<["edad" := a]> (<["email" := e]> (<["nombre" := n]> ∅))) (Ret cur);
          ECommit c (Ret tt); EClose c (Ret tt)],
     Ret v).
Proof.
  intros H1 H2 H3 Hrow H4. unfold create_user, try_except.
  rewrite get_connection_unfold, H1.
  unfold bind, execute, commit, fetched_item, row_item, ret.
  rewrite H2; cbn. rewrite H3, Hrow; cbn. by rewrite H4.
Qed.

Lemma read_user_path (i : pyval) w w1 c w2 cur w3 :
  d_connect drv w = (w1, Ret c) →
  d_execute drv c select_by_id_text {[ "user_id" := i ]} w1 = (w2, Ret cur) →
  d_close drv c w2 = (w3, Ret tt) →
  match fetchone cur with
  | Some r => row_truth r = true ∧ is_Some (dict_of_row r)
  | None => True
  end →
  read_user drv i w =
    (w3, [EConnect (Ret c);
          EExecute c select_by_id_text {[ "user_id" := i ]} (Ret cur);
          EClose c (Ret tt)],
     Ret (fetchone cur ≫= dict_of_row)).
Proof.
  intros H1 H2 H3 Hrow. unfold read_user, try_except.
  rewrite get_connection_unfold, H1. unfold bind, execute, ret.
  rewrite H2; cbn. destruct (fetchone cur) as [r|]; cbn.
  - destruct Hrow as [-> [d Hd]]. rewrite user_data_dict, Hd; cbn.
    by rewrite H3.
  - by rewrite H3.
Qed.

Lemma read_all_users_path w w1 c w2 cur w3 ds :
  d_connect drv w = (w1, Ret c) →
  d_execute drv c select_all_text ∅ w1 = (w2, Ret cur) →
  d_close drv c w2 = (w3, Ret tt) →
  mapM dict_of_row (cur_rows cur) = Some ds →
  read_all_users drv w =
    (w3, [EConnect (Ret c); EExecute c select_all_text ∅ (Ret cur);
          EClose c (Ret tt)],
     Ret ds).
Proof.
  intros H1 H2 H3 Hds. unfold read_all_users, try_except.
  rewrite get_connection_unfold, H1. unfold bind, execute.
  rewrite H2; cbn. rewrite (collect_users_dicts _ ds [] _ Hds); cbn.
  by rewrite H3.
Qed.

Lemma update_user_path (i n e a : pyval) w w1 c w2 cur w3 w4 :
  supplied_columns n e a ≠ [] →
  d_connect drv w = (w1, Ret c) →
  d_execute drv c (statement_text (Update i n e a))
    (list_to_map (supplied_values (Update i n e a))) w1 = (w2, Ret cur) →
  d_commit drv c w2 = (w3, Ret tt) →
  d_close drv c w3 = (w4, Ret tt) →
  update_user drv i n e a w =
    (w4, [EConnect (Ret c);
          EExecute c (statement_text (Update i n e a))
            (list_to_map (supplied_values (Update i n e a))) (Ret cur);
          ECommit c (Ret tt); EClose c (Ret tt)],
     Ret (0 <? cur_rowcount cur)%Z).
Proof.
  intros Hne H1 H2 H3 H4. unfold update_user, try_except.
  rewrite update_fields_spec. cbn [statement_text] in *.
  destruct (supplied_columns n e a) as [|col cols]; [done|].
  cbn [fmap list_fmap] in *.
  rewrite get_connection_unfold, H1. unfold bind, execute, commit, ret.
  rewrite H2; cbn. rewrite H3; cbn. destruct (_ <? _)%Z; cbn; by rewrite H4.
Qed.

Lemma delete_user_path (i : pyval) w w1 c w2 cur w3 w4 :
  d_connect drv w = (w1, Ret c) →
  d_execute drv c delete_text {[ "user_id" := i ]} w1 = (w2, Ret cur) →
  d_commit drv c w2 = (w3, Ret tt) →
  d_close drv c w3 = (w4, Ret tt) →
  delete_user drv i w =
    (w4, [EConnect (Ret c);
          EExecute c delete_text {[ "user_id" := i ]} (Ret cur);
          ECommit c (Ret tt); EClose c (Ret tt)],
     Ret (0 <? cur_rowcount cur)%Z).
Proof.
  intros H1 H2 H3 H4. unfold delete_user, try_except.
  rewrite get_connection_unfold, H1. unfold bind, execute, commit, ret.
  rewrite H2; cbn. rewrite H3; cbn. destruct (_ <? _)%Z; cbn; by rewrite H4.
Qed.

(** A statement that fails right after the connect: the world the operation
    leaves is the one left by the rollback and the close. *)
Lemma create_user_execute_fails_world (n e a : pyval) w w1 c w2 err :
  d_connect drv w = (w1, Ret c) →
  d_execute drv c insert_text
    (<["edad" := a]> (<["email" := e]> (<["nombre" := n]> ∅))) w1 = (w2, Raise err) →
  world_of (create_user drv n e a w) = (d_close drv c (d_rollback drv c w2).1).1.
Proof.
  intros H1 H2. unfold create_user, try_except, world_of.
  rewrite get_connection_unfold, H1. unfold bind, execute.
  rewrite H2; cbn.
  destruct (d_rollback drv c w2) as [w3 rr]; cbn.
  destruct (d_close drv c w3) as [w4 rc]; cbn.
  unfold ret. repeat case_match; simplify_eq/=; done.
Qed.

End Paths.

(** ** The reference engine at rest *)

Lemma rowcount_positive (i : Z) (rows : list RefEngine.user) :
  (0 <? Z.of_nat (length (filter (fun u => RefEngine.has_key (Some i) u = true) rows)))%Z
  = key_present i rows.
Proof.
  induction rows as [|u rows IH]; [done|].
  rewrite filter_cons. cbn [key_present existsb RefEngine.has_key] in *.
  destruct (bool_decide (RefEngine.u_id u = i)) eqn:Hu.
  - rewrite decide_True by done. cbn [length orb]. apply Z.ltb_lt. lia.
  - rewrite decide_False by (by intros ?). done.
Qed.

Lemma mapM_user_rows (us : list RefEngine.user) :
  mapM dict_of_row (RefEngine.user_row <$> us) = Some (user_dict <$> us).
Proof.
  apply mapM_Some. induction us as [|u us IH]; constructor; [reflexivity|done].
Qed.

Lemma create_user_at_rest rows nid (n e a : pyval) :
  create_user RefEngine.driver n e a (RefEngine.at_rest rows nid) =
    (RefEngine.Db (rows ++ [RefEngine.User nid n e a]) (rows ++ [RefEngine.User nid n e a])
       (nid + 1) 1 [],
     [EConnect (Ret 0);
      EExecute 0 insert_text (<["edad" := a]> (<["email" := e]> (<["nombre" := n]> ∅)))
        (Ret (Cursor [[PyInt nid]] 1));
      ECommit 0 (Ret tt); EClose 0 (Ret tt)],
     Ret (PyInt nid)).
Proof. erewrite create_user_path; reflexivity. Qed.

Lemma read_user_at_rest rows nid (i : Z) :
  read_user RefEngine.driver (PyInt i) (RefEngine.at_rest rows nid) =
    (RefEngine.Db rows rows nid 1 [],
     [EConnect (Ret 0);
      EExecute 0 select_by_id_text {[ "user_id" := PyInt i ]}
        (Ret (Cursor
           (RefEngine.user_row <$> filter (fun u => RefEngine.has_key (Some i) u = true) rows)
           (Z.of_nat (length (filter (fun u => RefEngine.has_key (Some i) u = true) rows)))));
      EClose 0 (Ret tt)],
     Ret (user_dict <$> head (filter (fun u => RefEngine.has_key (Some i) u = true) rows))).
Proof.
  erewrite read_user_path.
  - f_equal; try reflexivity. unfold fetchone. cbn [cur_rows].
    by destruct (filter _ rows).
  - reflexivity.
  - reflexivity.
  - reflexivity.
  - unfold fetchone. cbn [cur_rows]. by destruct (filter _ rows).
Qed.

Lemma read_all_users_at_rest rows nid :
  read_all_users RefEngine.driver (RefEngine.at_rest rows nid) =
    (RefEngine.Db rows rows nid 1 [],
     [EConnect (Ret 0);
      EExecute 0 select_all_text ∅
        (Ret (Cursor (RefEngine.user_row <$> merge_sort RefEngine.id_le rows)
                (Z.of_nat (length (merge_sort RefEngine.id_le rows)))));
      EClose 0 (Ret tt)],
     Ret (user_dict <$> merge_sort RefEngine.id_le rows)).
Proof.
  erewrite read_all_users_path; [reflexivity|reflexivity..|].
  apply mapM_user_rows.
Qed.

Lemma update_user_at_rest rows nid (i : Z) (n e a : pyval) :
  supplied_columns n e a ≠ [] →
  update_user RefEngine.driver (PyInt i) n e a (RefEngine.at_rest rows nid) =
    (RefEngine.Db
       ((fun u => if RefEngine.has_key (Some i) u
                  then with_supplied n e a u else u) <$> rows)
       ((fun u => if RefEngine.has_key (Some i) u
                  then with_supplied n e a u else u) <$> rows) nid 1 [],
     [EConnect (Ret 0);
      EExecute 0 (statement_text (Update (PyInt i) n e a))
        (list_to_map (supplied_values (Update (PyInt i) n e a)))
        (Ret (Cursor []
           (Z.of_nat (length (filter (fun u => RefEngine.has_key (Some i) u = true) rows)))));
      ECommit 0 (Ret tt); EClose 0 (Ret tt)],
     Ret (key_present i rows)).
Proof.
  intros Hne. rewrite <- rowcount_positive.
  destruct n, e, a; try done;
    (erewrite update_user_path; [f_equal; reflexivity|done|reflexivity..]).
Qed.

Lemma delete_user_at_rest rows nid (i : Z) :
  delete_user RefEngine.driver (PyInt i) (RefEngine.at_rest rows nid) =
    (RefEngine.Db
       (filter (fun u => RefEngine.has_key (Some i) u = false) rows)
       (filter (fun u => RefEngine.has_key (Some i) u = false) rows) nid 1 [],
     [EConnect (Ret 0);
      EExecute 0 delete_text {[ "user_id" := PyInt i ]}
        (Ret (Cursor []
           (Z.of_nat (length (filter (fun u => RefEngine.has_key (Some i) u = true) rows)))));
      ECommit 0 (Ret tt); EClose 0 (Ret tt)],
     Ret (key_present i rows)).
Proof.
  rewrite <- rowcount_positive.
  erewrite delete_user_path; [f_equal; reflexivity|reflexivity..].
Qed.

(** ** Invariants of the world *)

Section Invariants.

Context {W : Type} (drv : Driver W) (P : W -> Prop).

Lemma keeps_ret {A} (a : A) : keeps P (ret a).
Proof. by intros w HP. Qed.

Lemma keeps_raise {A} (e : exc) : keeps P (raise (A:=A) e).
Proof. by intros w HP. Qed.

Lemma keeps_bind {A B} (m : M A) (k : A -> M B) :
  keeps P m → (∀ a, keeps P (k a)) → keeps P (bind m k).
Proof.
  intros Hm Hk w HP. specialize (Hm w HP). unfold bind, world_of in *.
  destruct (m w) as [[w1 t1] [a|e]]; cbn in *; [|done].
  specialize (Hk a w1 Hm). by destruct (k a w1) as [[w2 t2] r].
Qed.

Lemma keeps_try_except {A} (m : M A) (hs : list ((exc -> bool) * (exc -> M A))) :
  keeps P m → Forall (fun h => ∀ e, keeps P (h.2 e)) hs → keeps P (try_except m hs).
Proof.
  intros Hm Hhs w HP. specialize (Hm w HP). unfold try_except, world_of in *.
  destruct (m w) as [[w1 t1] [a|e]]; cbn in *; [done|].
  destruct (select_handler hs e) as [h|] eqn:Hsel; [|done].
  assert (keeps P h) as Hh.
  { clear -Hhs Hsel. induction Hhs as [|[acc h'] hs Hh' _ IH]; [done|].
    cbn in Hsel. destruct (acc e); [by simplify_eq|by apply IH]. }
  specialize (Hh w1 Hm). by destruct (h w1) as [[w2 t2] r].
Qed.

Lemma keeps_call {A} (f : W -> W * res A) (ev : res A -> event) :
  (∀ w, P w → P (f w).1) →
  keeps P (fun w => let '(w', r) := f w in (w', [ev r], r)).
Proof. intros Hf w HP. specialize (Hf w HP). by destruct (f w). Qed.

Lemma keeps_get_connection {A} (body : conn -> M A) :
  (∀ w, P w → P (d_connect drv w).1) →
  (∀ c w, P w → P (d_rollback drv c w).1) →
  (∀ c w, P w → P (d_close drv c w).1) →
  (∀ c, keeps P (body c)) →
  keeps P (get_connection drv body).
Proof.
  intros Hconnect Hrollback Hclose Hbody w HP.
  rewrite get_connection_unfold. specialize (Hconnect w HP).
  destruct (d_connect drv w) as [w1 [c|e]]; cbn in *; [|done].
  specialize (Hbody c w1 Hconnect). unfold world_of in *.
  destruct (body c w1) as [[w2 tb] [a|e]]; cbn in *.
  - specialize (Hclose c w2 Hbody). by destruct (d_close drv c w2).
  - specialize (Hrollback c w2 Hbody).
    destruct (d_rollback drv c w2) as [w3 rr]; cbn in *.
    specialize (Hclose c w3 Hrollback). by destruct (d_close drv c w3).
Qed.

(** [update_user] keeps every property of the world that the five driver
    calls keep, the statement being the one the call builds. *)
Lemma keeps_update_user (i n e a : pyval) :
  (∀ w, P w → P (d_connect drv w).1) →
  (∀ c w, P w →
     P (d_execute drv c (statement_text (Update i n e a))
          (list_to_map (supplied_values (Update i n e a))) w).1) →
  (∀ c w, P w → P (d_commit drv c w).1) →
  (∀ c w, P w → P (d_rollback drv c w).1) →
  (∀ c w, P w → P (d_close drv c w).1) →
  keeps P (update_user drv i n e a).
Proof.
  intros Hconnect Hexecute Hcommit Hrollback Hclose.
  unfold update_user. rewrite update_fields_spec.
  cbn [statement_text] in Hexecute.
  apply keeps_try_except;
    [|constructor; [intros ?; apply keeps_ret|constructor]].
  destruct (supplied_columns n e a) as [|col cols]; [apply keeps_ret|].
  cbn [fmap list_fmap] in *.
  apply keeps_get_connection; [done..|]. intros c.
  apply keeps_bind; [apply (keeps_call _ (EExecute _ _ _)); by auto|]. intros cur.
  apply keeps_bind; [apply (keeps_call _ (ECommit _)); by auto|]. intros _.
  destruct (_ <? _)%Z; apply keeps_ret.
Qed.

End Invariants.

(** ** Updates on the reference engine *)

Lemma parse_update_text (i n e a : pyval) :
  supplied_columns n e a ≠ [] →
  RefEngine.parse (statement_text (Update i n e a)) =
    Some (RefEngine.SUpdate ((fun c => (c, c)) <$> supplied_columns n e a) "user_id").
Proof. intros Hne. destruct n, e, a; first [done | reflexivity]. Qed.

Lemma set_column_id col v u :
  RefEngine.u_id (RefEngine.set_column col v u) = RefEngine.u_id u.
Proof. unfold RefEngine.set_column. by repeat case_bool_decide. Qed.

Lemma set_column_other col v u :
  (col ≠ "nombre" → RefEngine.u_nombre (RefEngine.set_column col v u) = RefEngine.u_nombre u)
  ∧ (col ≠ "email" → RefEngine.u_email (RefEngine.set_column col v u) = RefEngine.u_email u)
  ∧ (col ≠ "edad" → RefEngine.u_edad (RefEngine.set_column col v u) = RefEngine.u_edad u).
Proof.
  unfold RefEngine.set_column.
  repeat case_bool_decide; simplify_eq; cbn; by repeat split.
Qed.

(** An assignment list changes only the columns it names. *)
Lemma set_columns_other (bound : list (string * pyval)) (u : RefEngine.user) :
  RefEngine.u_id (RefEngine.set_columns bound u) = RefEngine.u_id u
  ∧ ("nombre" ∉ bound.*1 →
       RefEngine.u_nombre (RefEngine.set_columns bound u) = RefEngine.u_nombre u)
  ∧ ("email" ∉ bound.*1 →
       RefEngine.u_email (RefEngine.set_columns bound u) = RefEngine.u_email u)
  ∧ ("edad" ∉ bound.*1 →
       RefEngine.u_edad (RefEngine.set_columns bound u) = RefEngine.u_edad u).
Proof.
  unfold RefEngine.set_columns. revert u.
  induction bound as [|[col v] bound IH]; intros u; [done|].
  cbn [foldl fst snd fmap list_fmap].
  destruct (IH (RefEngine.set_column col v u)) as (Hid & Hn & He & Ha).
  destruct (set_column_other col v u) as (Hn' & He' & Ha').
  rewrite Hid, set_column_id. split; [done|].
  repeat split; intros [Hne Hnot]%not_elem_of_cons.
  - rewrite Hn by done. by apply Hn'.
  - rewrite He by done. by apply He'.
  - rewrite Ha by done. by apply Ha'.
Qed.

Lemma bind_sets_columns (p : params) sets bound :
  RefEngine.bind_sets p sets = Some bound → bound.*1 = sets.*1.
Proof.
  unfold RefEngine.bind_sets. intros H. apply mapM_Some in H.
  induction H as [|[col name] [col' v] sets bound Hh _ IH]; [done|].
  cbn in *. destruct (p !! name); cbn in Hh; simplify_eq. by f_equal.
Qed.

Lemma unsupplied_not_assigned (n e a : pyval) :
  (n = PyNone → "nombre" ∉ supplied_columns n e a)
  ∧ (e = PyNone → "email" ∉ supplied_columns n e a)
  ∧ (a = PyNone → "edad" ∉ supplied_columns n e a).
Proof.
  destruct n, e, a; repeat split; intros ?; simplify_eq; cbn;
    rewrite ?not_elem_of_cons; repeat split; try done; apply not_elem_of_nil.
Qed.

(** On a row it matches or not, the update of the reference engine keeps
    the key and the columns that were not supplied. *)
Lemma updated_row_kept (n e a : pyval) (k : option Z) bound (u0 u : RefEngine.user) :
  bound.*1 = supplied_columns n e a →
  unsupplied_kept n e a u0 u →
  unsupplied_kept n e a u0
    (if RefEngine.has_key k u then RefEngine.set_columns bound u else u).
Proof.
  intros Hcols Hkept. destruct (RefEngine.has_key k u); [|done].
  destruct Hkept as (Hid & Hn & He & Ha).
  destruct (set_columns_other bound u) as (Hid' & Hn' & He' & Ha').
  destruct (unsupplied_not_assigned n e a) as (Un & Ue & Ua).
  rewrite Hcols in *.
  repeat split; [congruence|intros H..].
  - rewrite Hn' by auto. auto.
  - rewrite He' by auto. auto.
  - rewrite Ha' by auto. auto.
Qed.

Lemma frame_inv_step {A} rows n e a (f : RefEngine.db -> RefEngine.db * res A) :
  (∀ d, frame_inv rows n e a d → frame_inv rows n e a (f d).1) →
  ∀ d, frame_inv rows n e a d → frame_inv rows n e a (RefEngine.step f d).1.
Proof.
  intros Hf d Hd. unfold RefEngine.step. destruct d as [cm wk nid k fs]. cbn.
  destruct fs as [|[err|] fs]; [by apply Hf| |]; cbn.
  - done.
  - apply Hf. done.
Qed.

Lemma frame_inv_update rows (i n e a : pyval) (c : conn) (d : RefEngine.db) :
  supplied_columns n e a ≠ [] →
  frame_inv rows n e a d →
  frame_inv rows n e a
    (d_execute RefEngine.driver c (statement_text (Update i n e a))
       (list_to_map (supplied_values (Update i n e a))) d).1.
Proof.
  intros Hne. cbn [d_execute RefEngine.driver]. unfold RefEngine.execute.
  apply frame_inv_step. clear d. intros d [Hc Hw].
  rewrite parse_update_text by done. cbn [RefEngine.exec_stmt].
  destruct (forallb _ _); [|done].
  destruct (RefEngine.bind_sets _ _) as [bound|] eqn:Hbound; [|done].
  destruct (_ !! "user_id") as [v|]; [|done].
  destruct (RefEngine.key_of v) as [k|err]; [|done].
  split; [done|]. cbn. apply Forall2_fmap_r.
  eapply Forall2_impl; [exact Hw|]. intros u0 u Hkept.
  apply updated_row_kept; [|done].
  rewrite (bind_sets_columns _ _ _ Hbound).
  rewrite <- list_fmap_compose. by rewrite list_fmap_id.
Qed.

Lemma update_user_frame rows nid fs (i n e a : pyval) :
  Forall2 (unsupplied_kept n e a) rows
    (RefEngine.committed
       (world_of (update_user RefEngine.driver i n e a
                    (RefEngine.with_faults rows nid fs)))).
Proof.
  destruct (decide (supplied_columns n e a = [])) as [Hnil|Hne].
  { apply supplied_columns_nil in Hnil as (-> & -> & ->). cbn.
    apply Forall2_same_length_lookup_2; [done|]. intros ? ? ? ? ?. by simplify_eq. }
  refine (proj1 (keeps_update_user RefEngine.driver (frame_inv rows n e a)
                   i n e a _ _ _ _ _ (RefEngine.with_faults rows nid fs) _)).
  - apply (frame_inv_step rows n e a). by intros d [Hc Hw].
  - intros c d. by apply frame_inv_update.
  - intros c. apply (frame_inv_step rows n e a). by intros d [Hc Hw].
  - intros c. apply (frame_inv_step rows n e a). by intros d [Hc Hw].
  - intros c. apply (frame_inv_step rows n e a). by intros d [Hc Hw].
  - assert (Forall2 (unsupplied_kept n e a) rows rows) as Hrefl.
    { apply Forall2_same_length_lookup_2; [done|]. intros ? ? ? ? ?. by simplify_eq. }
    by split.
Qed.

(** A column is assigned exactly when its argument is not [None]. *)
Lemma supplied_columns_elem (n e a : pyval) :
  ("nombre" ∈ supplied_columns n e a ↔ n ≠ PyNone)
  ∧ ("email" ∈ supplied_columns n e a ↔ e ≠ PyNone)
  ∧ ("edad" ∈ supplied_columns n e a ↔ a ≠ PyNone).
Proof.
  destruct (unsupplied_not_assigned n e a) as (Hn & He & Ha).
  split; [|split];
    (split; [intros H Heq; first [by apply Hn | by apply He | by apply Ha]
            |intros H]).
  all: destruct n, e, a; cbn; try done; rewrite ?elem_of_cons; auto 6.
Qed.

(** No stored row has the key: the WHERE clause selects nothing. *)
Lemma filter_absent (i : Z) (rows : list RefEngine.user) :
  key_present i rows = false →
  filter (fun u => RefEngine.has_key (Some i) u = true) rows = [].
Proof.
  induction rows as [|u rows IH]; [done|]. intros Hno.
  cbn in Hno. apply orb_false_elim in Hno as [Hu Hrows].
  rewrite filter_cons. cbn [RefEngine.has_key]. rewrite Hu.
  rewrite decide_False by done. by apply IH.
Qed.

(** ** The demonstration run *)

Example demo_ids :
  result_of demo_1 = Ret (PyInt 1) ∧ result_of demo_2 = Ret (PyInt 2)
  ∧ result_of demo_3 = Ret (PyInt 3).
Proof. repeat split; reflexivity. Qed.

Example demo_update :
  result_of demo_4 = Ret true
  ∧ result_of demo_5
    = Ret (Some (user_dict (RefEngine.User 2 (PyStr "Maria F")
                              (PyStr "maria@email.com") (PyInt 26)))).
Proof. repeat split; reflexivity. Qed.

Example demo_delete :
  result_of demo_6 = Ret true
  ∧ result_of demo_7
    = Ret [user_dict (RefEngine.User 1 (PyStr "Juan") (PyStr "juan@email.com") (PyInt 30));
           user_dict (RefEngine.User 2 (PyStr "Maria F")
                        (PyStr "maria@email.com") (PyInt 26))].
Proof. repeat split; reflexivity. Qed.

Example demo_traces_ok :
  forallb lease_ok
    [trace_of demo_1; trace_of demo_2; trace_of demo_3; trace_of demo_4;
     trace_of demo_5; trace_of demo_6; trace_of demo_7] = true.
Proof. reflexivity. Qed.

(** ** Partial updates *)

(** C1.  For an [update_user] call that supplies at least one of [nombre],
    [email], [edad]: the assignment fragments are one [col = :col] per
    supplied column, in argument order; read back from the statement text,
    the assignment list is exactly the supplied columns, each bound to the
    placeholder of its own name, with the key bound in the WHERE clause; a
    column is in the list exactly when its argument is not [None]; the
    bound parameters are the key and the supplied values under their names;
    this text and these parameters are what [update_user] hands to any
    driver.  On the reference engine, whatever the key and the fault plan,
    every stored row keeps its key and every column that was not supplied;
    on the engine at rest the rows with the key get the supplied values. *)
Theorem update_touches_only_supplied (i n e a : pyval) :
  supplied_columns n e a ≠ [] →
  (update_fields i n e a).1 = (fun c => c +:+ " = :" +:+ c) <$> supplied_columns n e a
  ∧ RefEngine.parse (update_text (update_fields i n e a).1)
    = Some (RefEngine.SUpdate ((fun c => (c, c)) <$> supplied_columns n e a) "user_id")
  ∧ (("nombre" ∈ supplied_columns n e a ↔ n ≠ PyNone)
     ∧ ("email" ∈ supplied_columns n e a ↔ e ≠ PyNone)
     ∧ ("edad" ∈ supplied_columns n e a ↔ a ≠ PyNone))
  ∧ (update_fields i n e a).2 = list_to_map (supplied_values (Update i n e a))
  ∧ (∀ (W : Type) (drv : Driver W) (w : W),
       Forall (fun q => q = update_text (update_fields i n e a).1)
         (statement_texts (trace_of (update_user drv i n e a w)))
       ∧ Forall (fun p => p = (update_fields i n e a).2)
           (statement_params (trace_of (update_user drv i n e a w))))
  ∧ (∀ rows nid fs,
       Forall2 (unsupplied_kept n e a) rows
         (RefEngine.committed
            (world_of (update_user RefEngine.driver i n e a
                         (RefEngine.with_faults rows nid fs)))))
  ∧ (∀ rows nid z, i = PyInt z →
       RefEngine.committed
         (world_of (update_user RefEngine.driver i n e a (RefEngine.at_rest rows nid)))
       = (fun u => if RefEngine.has_key (Some z) u then with_supplied n e a u else u)
           <$> rows).
Proof.
  intros Hne. rewrite update_fields_spec. cbn [fst snd].
  split; [done|]. split; [by apply (parse_update_text i)|].
  split; [apply supplied_columns_elem|]. split; [done|].
  split; [|split].
  - intros W drv w.
    destruct (run_statements drv (Update i n e a) w) as [Ht Hp].
    split.
    + revert Ht. unfold run, fmap_M, trace_of, statement_text.
      by destruct (update_user drv i n e a w) as [[? ?] [?|?]].
    + revert Hp. unfold run, fmap_M, trace_of.
      by destruct (update_user drv i n e a w) as [[? ?] [?|?]].
  - intros rows nid fs. apply update_user_frame.
  - intros rows nid z ->. by rewrite update_user_at_rest.
Qed.

Lemma update_touches_only_supplied_witness :
  supplied_columns PyNone PyNone (PyInt 26) ≠ []
  ∧ RefEngine.parse (update_text (update_fields (PyInt 2) PyNone PyNone (PyInt 26)).1)
    = Some (RefEngine.SUpdate [("edad", "edad")] "user_id").
Proof.
  split; [discriminate|].
  apply (update_touches_only_supplied (PyInt 2) PyNone PyNone (PyInt 26)).
  discriminate.
Defined.

(** ** The empty update *)

(** C2, as the code has it.  When [nombre], [email] and [edad] are all
    [None], [update_user] returns [False] by a normal return: it raises
    nothing, makes no driver call at all and leaves the world as it was. *)
Theorem update_user_empty_returns_False
  {W : Type} (drv : Driver W) (user_id : pyval) (w : W) :
  update_user drv user_id PyNone PyNone PyNone w = (w, [], Ret false).
Proof. reflexivity. Qed.

(** C2 as stated fails: on the reference engine, an update that supplies no
    field ends in a normal return of [False], not in an error of any kind,
    and that is also what an update of an absent row returns. *)
Lemma update_user_empty_is_not_an_error :
  let x := update_user RefEngine.driver (PyInt 1) PyNone PyNone PyNone
             (RefEngine.at_rest [] 1) in
  result_of x = Ret false
  ∧ (∀ e, result_of x ≠ Raise e)
  ∧ result_of x
    = result_of (update_user RefEngine.driver (PyInt 1) PyNone PyNone (PyInt 30)
                   (RefEngine.at_rest [] 1)).
Proof. split; [reflexivity|]. split; [intros e; discriminate|reflexivity]. Qed.

(** ** The connection lease *)

(** C3.  Once [engine.connect()] has returned a connection, whatever way the
    block under [with] is left, [close] is called on that connection as the
    last driver call, and when the block is left by an exception [rollback]
    is called on it just before; a connect that fails leaves nothing to
    release.  Every operation of the layer (the probe and the five CRUD
    methods) therefore leaves a well-formed lease, on every driver and from
    every state. *)
Theorem lease_always_released :
  (∀ (W : Type) (drv : Driver W) (A : Type) (body : conn -> M A) (w : W),
     let t := trace_of (get_connection drv body w) in
     match d_connect drv w with
     | (w1, Raise e) => t = [EConnect (Raise e)]
     | (w1, Ret c) =>
         let '(w2, tb, rb) := body c w1 in
         ∃ rc, t = EConnect (Ret c) :: tb
                   ++ (if raised rb then [ERollback c (d_rollback drv c w2).2] else [])
                   ++ [EClose c rc]
     end)
  ∧ (∀ (W : Type) (drv : Driver W) (o : operation) (w : W),
       lease_ok (trace_of (run drv o w)) = true).
Proof.
  split.
  - intros W drv A body w. cbn zeta. rewrite get_connection_unfold.
    destruct (d_connect drv w) as [w1 [c|e]]; [|done].
    destruct (body c w1) as [[w2 tb] [a|e]]; cbn.
    + destruct (d_close drv c w2) as [w3 rc]. by exists rc.
    + destruct (d_rollback drv c w2) as [w3 rr].
      destruct (d_close drv c w3) as [w4 rc]. by exists rc.
  - intros W drv o w. apply run_lease_ok.
Qed.

(** ** Matched rows *)

(** C4.  On the reference engine at rest, for every integer key: an
    [update_user] that supplies at least one field and a [delete_user]
    return [True] when some stored row has the key and [False] when none
    has; in both cases no driver call fails and nothing is raised, so an
    absent key gives a normal return of [False].  On any driver, when the
    four calls work, the value returned is [rowcount > 0] of the result the
    driver gave for the statement. *)
Theorem update_delete_report_match
  (rows : list RefEngine.user) (nid i : Z) (n e a : pyval) :
  supplied_columns n e a ≠ [] →
  let upd := update_user RefEngine.driver (PyInt i) n e a (RefEngine.at_rest rows nid) in
  let del := delete_user RefEngine.driver (PyInt i) (RefEngine.at_rest rows nid) in
  result_of upd = Ret (key_present i rows)
  ∧ no_failure (trace_of upd) = true
  ∧ result_of del = Ret (key_present i rows)
  ∧ no_failure (trace_of del) = true
  ∧ (key_present i rows = false → result_of upd = Ret false ∧ result_of del = Ret false)
  ∧ (∀ (W : Type) (drv : Driver W) (v : pyval) w w1 c w2 cur w3 w4,
       d_connect drv w = (w1, Ret c) →
       d_commit drv c w2 = (w3, Ret tt) →
       d_close drv c w3 = (w4, Ret tt) →
       (d_execute drv c (statement_text (Update v n e a))
          (list_to_map (supplied_values (Update v n e a))) w1 = (w2, Ret cur) →
        result_of (update_user drv v n e a w) = Ret (0 <? cur_rowcount cur)%Z)
       ∧ (d_execute drv c delete_text {[ "user_id" := v ]} w1 = (w2, Ret cur) →
          result_of (delete_user drv v w) = Ret (0 <? cur_rowcount cur)%Z)).
Proof.
  intros Hne. cbn zeta.
  rewrite update_user_at_rest by done. rewrite delete_user_at_rest.
  do 4 (split; [done|]). split; [by intros ->|].
  intros W drv v w w1 c w2 cur w3 w4 H1 H3 H4. split; intros H2.
  - by rewrite (update_user_path drv v n e a w w1 c w2 cur w3 w4).
  - by rewrite (delete_user_path drv v w w1 c w2 cur w3 w4).
Qed.

Lemma update_delete_report_match_witness :
  supplied_columns (PyStr "Ana") PyNone PyNone ≠ []
  ∧ result_of (update_user RefEngine.driver (PyInt 7) (PyStr "Ana") PyNone PyNone
                 (RefEngine.at_rest
                    [RefEngine.User 1 (PyStr "Juan") (PyStr "juan@email.com") (PyInt 30)] 2))
    = Ret false.
Proof.
  split; [discriminate|].
  apply (update_delete_report_match
           [RefEngine.User 1 (PyStr "Juan") (PyStr "juan@email.com") (PyInt 30)]
           2 7 (PyStr "Ana") PyNone PyNone); [discriminate|reflexivity].
Defined.

(** ** A failed insert *)

(** C5, as the code has it.  When the statement of [create_user] fails at
    the driver: the driver calls are the connect, the failed execute, a
    rollback and the close on the same connection, in this order, and no
    commit; if every failure was an [SQLAlchemyError], [create_user]
    returns [None] (the cause is not part of what it returns).  On the
    reference engine the committed table is then the one from before. *)
Theorem create_user_execution_failure
  {W : Type} (drv : Driver W) (nombre email edad : pyval) (w : W) :
  let x := create_user drv nombre email edad w in
  existsb (fun ev => is_execute ev && ev_failed ev) (trace_of x) = true →
  (∃ c err rr rc,
      trace_of x =
        [EConnect (Ret c);
         EExecute c insert_text
           (<["edad" := edad]> (<["email" := email]> (<["nombre" := nombre]> ∅)))
           (Raise err);
         ERollback c rr; EClose c rc])
  ∧ existsb is_commit (trace_of x) = false
  ∧ (forallb ev_sqla_or_ok (trace_of x) = true → result_of x = Ret PyNone)
  ∧ (∀ rows nid err fs,
       RefEngine.committed
         (world_of (create_user RefEngine.driver nombre email edad
                      (RefEngine.with_faults rows nid (None :: Some err :: fs))))
       = rows).
Proof.
  cbn zeta. intros Hfail. split; [|split; [|split]].
  - revert Hfail. op_cases; intros; simplify_eq/=; by repeat eexists.
  - revert Hfail. op_cases; intros; simplify_eq/=; done.
  - pose proof (run_failure_value drv (Create nombre email edad) w) as Hrun.
    revert Hfail Hrun. unfold run, fmap_M, trace_of, result_of.
    destruct (create_user drv nombre email edad w) as [[w' t] [v|e]]; cbn.
    + intros Hfail Hrun Hsqla.
      assert (existsb ev_failed t = true) as Hany.
      { apply existsb_exists in Hfail as (ev & Hin & [_ Hev]%andb_prop).
        apply existsb_exists. by exists ev. }
      specialize (Hrun Hany Hsqla). by simplify_eq.
    + intros Hfail Hrun Hsqla.
      assert (existsb ev_failed t = true) as Hany.
      { apply existsb_exists in Hfail as (ev & Hin & [_ Hev]%andb_prop).
        apply existsb_exists. by exists ev. }
      specialize (Hrun Hany Hsqla). by simplify_eq.
  - intros rows nid err fs.
    erewrite create_user_execute_fails_world; [|reflexivity..].
    by destruct fs as [|[?|] [|[?|] ?]].
Qed.

Lemma create_user_execution_failure_witness :
  let x := create_user RefEngine.driver (PyStr "Juan") (PyStr "juan@email.com") (PyInt 30)
             (RefEngine.with_faults [] 1 [None; Some (Exc SQLAlchemyError "server closed")]) in
  existsb (fun ev => is_execute ev && ev_failed ev) (trace_of x) = true
  ∧ existsb is_commit (trace_of x) = false
  ∧ result_of x = Ret PyNone.
Proof.
  cbn zeta. split; [reflexivity|].
  pose proof (create_user_execution_failure RefEngine.driver
                (PyStr "Juan") (PyStr "juan@email.com") (PyInt 30)
                (RefEngine.with_faults [] 1 [None; Some (Exc SQLAlchemyError "server closed")])
                eq_refl) as (_ & Hcommit & Hres & _).
  split; [exact Hcommit|exact (Hres eq_refl)].
Defined.

(** C5 as stated fails: on the reference engine, with the execute failing
    with an [SQLAlchemyError], [create_user] returns [None] by a normal
    return; it raises nothing, and what it returns is the same for another
    cause, so the cause is not carried. *)
Lemma create_user_failure_returns_None :
  let cause := Exc SQLAlchemyError "server closed the connection" in
  let other := Exc SQLAlchemyError "duplicate key value" in
  let run_with e :=
    create_user RefEngine.driver (PyStr "Juan") (PyStr "juan@email.com") (PyInt 30)
      (RefEngine.with_faults [] 1 [None; Some e]) in
  ev_failure <$> trace_of (run_with cause) = [None; Some cause; None; None]
  ∧ result_of (run_with cause) = Ret PyNone
  ∧ (∀ e, result_of (run_with cause) ≠ Raise e)
  ∧ result_of (run_with cause) = result_of (run_with other).
Proof.
  cbn zeta. split; [reflexivity|]. split; [reflexivity|].
  split; [intros e; discriminate|reflexivity].
Qed.

(** ** Reading all rows *)

(** C6.  On the reference engine at rest, [read_all_users] returns a list:
    the dictionaries of all stored rows (a permutation of the table), in
    ascending order of key; no driver call fails, and the list is complete
    when the function returns, after the connection has been closed.  On an
    empty table the list is empty.  On any driver, when the three calls
    work and every row has its four columns, the list is the dictionaries
    of the rows of the result, in the order of the result. *)
Theorem read_all_users_sorted (rows : list RefEngine.user) (nid : Z) :
  let x := read_all_users RefEngine.driver (RefEngine.at_rest rows nid) in
  ∃ out : list RefEngine.user,
    result_of x = Ret (user_dict <$> out)
    ∧ out ≡ₚ rows
    ∧ Sorted RefEngine.id_le out
    ∧ no_failure (trace_of x) = true
    ∧ last (trace_of x) = Some (EClose 0 (Ret tt))
    ∧ (rows = [] → result_of x = Ret [])
    ∧ (∀ (W : Type) (drv : Driver W) w w1 c w2 cur w3 ds,
         d_connect drv w = (w1, Ret c) →
         d_execute drv c select_all_text ∅ w1 = (w2, Ret cur) →
         d_close drv c w2 = (w3, Ret tt) →
         mapM dict_of_row (cur_rows cur) = Some ds →
         result_of (read_all_users drv w) = Ret ds).
Proof.
  cbn zeta. rewrite read_all_users_at_rest.
  exists (merge_sort RefEngine.id_le rows). split; [done|].
  split; [apply merge_sort_Permutation|].
  split; [apply (Sorted_merge_sort _)|].
  do 2 (split; [done|]). split; [by intros ->|].
  intros W drv w w1 c w2 cur w3 ds H1 H2 H3 Hds.
  by rewrite (read_all_users_path drv w w1 c w2 cur w3 ds).
Qed.

Lemma read_all_users_sorted_witness :
  ∃ out : list RefEngine.user,
    result_of (read_all_users RefEngine.driver (RefEngine.at_rest [] 1))
    = Ret (user_dict <$> out).
Proof.
  destruct (read_all_users_sorted [] 1) as (out & H & _). by exists out.
Defined.

(** ** Reading one row *)

(** C7, as the code has it.  On the reference engine at rest, for every
    integer key, [read_user] returns the dictionary of the stored row with
    that key when there is one and [None] when there is none, by a normal
    return in both cases: no driver call fails and no rollback is issued.
    [None] is not reserved for the absent row: on every driver, when a
    driver call fails and every failure is an [SQLAlchemyError],
    [read_user] returns [None] as well.  On any driver, when the three
    calls work, the result is the dictionary of the first row of the
    result, or [None] when the result has no row. *)
Theorem read_user_found_or_None (rows : list RefEngine.user) (nid i : Z) :
  let x := read_user RefEngine.driver (PyInt i) (RefEngine.at_rest rows nid) in
  (∀ u, head (filter (fun u => RefEngine.u_id u = i) rows) = Some u →
        result_of x = Ret (Some (user_dict u)))
  ∧ (key_present i rows = false → result_of x = Ret None)
  ∧ no_failure (trace_of x) = true
  ∧ existsb is_rollback (trace_of x) = false
  ∧ (∀ (W : Type) (drv : Driver W) (v : pyval) (w : W),
       existsb ev_failed (trace_of (read_user drv v w)) = true →
       forallb ev_sqla_or_ok (trace_of (read_user drv v w)) = true →
       result_of (read_user drv v w) = Ret None)
  ∧ (∀ (W : Type) (drv : Driver W) (v : pyval) w w1 c w2 cur w3,
       d_connect drv w = (w1, Ret c) →
       d_execute drv c select_by_id_text {[ "user_id" := v ]} w1 = (w2, Ret cur) →
       d_close drv c w2 = (w3, Ret tt) →
       match fetchone cur with
       | Some r => row_truth r = true ∧ is_Some (dict_of_row r)
       | None => True
       end →
       result_of (read_user drv v w) = Ret (fetchone cur ≫= dict_of_row)).
Proof.
  cbn zeta. rewrite read_user_at_rest.
  split.
  { assert (filter (fun u => RefEngine.has_key (Some i) u = true) rows
            = filter (fun u => RefEngine.u_id u = i) rows) as ->.
    { apply list_filter_iff. intros u. cbn. by rewrite bool_decide_eq_true. }
    by intros u ->. }
  split; [intros Hno; by rewrite filter_absent|].
  do 2 (split; [done|]). split; cycle 1.
  { intros W drv v w w1 c w2 cur w3 H1 H2 H3 Hrow.
    by rewrite (read_user_path drv v w w1 c w2 cur w3). }
  intros W drv v w Hfail Hsqla.
  pose proof (run_failure_value drv (Read v) w) as Hrun.
  revert Hfail Hsqla Hrun. unfold run, fmap_M, trace_of, result_of.
  destruct (read_user drv v w) as [[w' t] [r|e]]; cbn;
    intros Hfail Hsqla Hrun; specialize (Hrun Hfail Hsqla); by simplify_eq.
Qed.

Lemma read_user_found_or_None_witness :
  key_present 7 [RefEngine.User 1 (PyStr "Juan") (PyStr "juan@email.com") (PyInt 30)] = false
  ∧ result_of (read_user RefEngine.driver (PyInt 7)
                 (RefEngine.at_rest
                    [RefEngine.User 1 (PyStr "Juan") (PyStr "juan@email.com") (PyInt 30)] 2))
    = Ret None.
Proof.
  split; [reflexivity|].
  destruct (read_user_found_or_None
              [RefEngine.User 1 (PyStr "Juan") (PyStr "juan@email.com") (PyInt 30)] 2 7)
    as (_ & Habsent & _).
  apply Habsent. reflexivity.
Defined.

(** C7 as stated fails: the outcome for an absent row is not distinct from
    the outcome of a failed read.  On the reference engine, reading key 1
    from the empty table (no failure) and reading key 1 while the row is
    stored but the statement fails give the same result, [None]. *)
Lemma read_user_absent_same_as_failed :
  let stored := [RefEngine.User 1 (PyStr "Juan") (PyStr "juan@email.com") (PyInt 30)] in
  let absent := read_user RefEngine.driver (PyInt 1) (RefEngine.at_rest [] 1) in
  let failed := read_user RefEngine.driver (PyInt 1)
                  (RefEngine.with_faults stored 2
                     [None; Some (Exc SQLAlchemyError "server closed the connection")]) in
  no_failure (trace_of absent) = true
  ∧ no_failure (trace_of failed) = false
  ∧ result_of absent = Ret None
  ∧ result_of failed = result_of absent.
Proof. cbn zeta. repeat split; reflexivity. Qed.

(** ** The probe *)

(** C8.  [test_connection] never raises: it returns a boolean on every
    driver and from every state.  It starts by asking for a connection; once
    it has one it sends [SELECT version()] on it and ends by closing it.  The
    boolean is [True] exactly when no driver call failed and the query
    answered with a value, and [False] otherwise. *)
Theorem test_connection_reports {W : Type} (drv : Driver W) (w : W) :
  let x := test_connection drv w in
  ∃ b : bool,
    result_of x = Ret b
    ∧ (∃ r, head (trace_of x) = Some (EConnect r))
    ∧ (∀ c, head (trace_of x) = Some (EConnect (Ret c)) →
         (∃ r, trace_of x !! 1 = Some (EExecute c "SELECT version()" ∅ r))
         ∧ (∃ r, last (trace_of x) = Some (EClose c r)))
    ∧ (b = true ↔
         no_failure (trace_of x) = true ∧ is_Some (liveness_answer (trace_of x))).
Proof.
  op_cases.
  all: eexists; split; [done|]; split; [by eexists|]; split.
  all: try (intros ? ?; simplify_eq; split; by eexists).
  all: unfold liveness_answer; cbn.
  all: try (split; [done|intros [? [? ?]]; simplify_option_eq; done]).
  all: split; [intros _; split; [done|]; simplify_option_eq; by eexists|done].
Qed.

Lemma test_connection_reports_witness :
  ∃ b : bool,
    result_of (test_connection RefEngine.driver (RefEngine.at_rest [] 1)) = Ret b
    ∧ b = true.
Proof.
  destruct (test_connection_reports RefEngine.driver (RefEngine.at_rest [] 1))
    as (b & Hres & _ & _ & Htrue).
  exists b. split; [exact Hres|].
  apply Htrue. split; [reflexivity|]. eexists. reflexivity.
Defined.

(** ** Statement texts and bound values *)

(** C9.  Two calls of the same operation that supply the same optional
    fields send the same statement text, whatever the values, the driver and
    the state; and the parameters of every statement sent are the supplied
    values under the names of the arguments. *)
Theorem statement_text_independent_of_values
  {W1 W2 : Type} (drv1 : Driver W1) (drv2 : Driver W2)
  (o1 o2 : operation) (w1 : W1) (w2 : W2) (q1 q2 : string) :
  same_presence o1 o2 →
  q1 ∈ statement_texts (trace_of (run drv1 o1 w1)) →
  q2 ∈ statement_texts (trace_of (run drv2 o2 w2)) →
  q1 = q2
  ∧ (∀ p, p ∈ statement_params (trace_of (run drv1 o1 w1)) →
          p = list_to_map (supplied_values o1)).
Proof.
  intros Hsame H1 H2.
  destruct (run_statements drv1 o1 w1) as [Ht1 Hp1].
  destruct (run_statements drv2 o2 w2) as [Ht2 _].
  split.
  - rewrite (proj1 (Forall_forall _ _) Ht1 q1 H1).
    rewrite (proj1 (Forall_forall _ _) Ht2 q2 H2).
    by apply statement_text_presence.
  - intros p Hp. exact (proj1 (Forall_forall _ _) Hp1 p Hp).
Qed.

Lemma statement_text_independent_of_values_witness :
  let o1 := Update (PyInt 1) (PyStr "Ana") PyNone PyNone in
  let o2 := Update (PyInt 2) (PyStr "x'; DROP TABLE users; --") PyNone PyNone in
  same_presence o1 o2
  ∧ statement_text o1 = statement_text o2.
Proof.
  cbn zeta. split; [by repeat split|].
  apply (statement_text_independent_of_values RefEngine.driver RefEngine.driver
           (Update (PyInt 1) (PyStr "Ana") PyNone PyNone)
           (Update (PyInt 2) (PyStr "x'; DROP TABLE users; --") PyNone PyNone)
           (RefEngine.at_rest [] 1) (RefEngine.at_rest [] 1)).
  - by repeat split.
  - apply list_elem_of_here.
  - apply list_elem_of_here.
Defined.

(** ** Failures and what the caller sees *)

(** C10.  When a driver call fails during an operation and every failure
    is an [SQLAlchemyError], the operation returns the value of its
    [except] clause: [None] for [create_user] and [read_user], the empty
    list for [read_all_users], [False] for [update_user] and [delete_user]
    (and for the probe).  The same values are returned with no failure at
    all: on the reference engine at rest, by [read_user], [update_user] and
    [delete_user] for a key that no row has, and by [read_all_users] on the
    empty table. *)
Theorem engine_failure_masked
  {W : Type} (drv : Driver W) (o : operation) (w : W) :
  existsb ev_failed (trace_of (run drv o w)) = true →
  forallb ev_sqla_or_ok (trace_of (run drv o w)) = true →
  result_of (run drv o w) = Ret (failure_value o)
  ∧ (∀ rows nid i, key_present i rows = false →
       ∀ o', (o' = Read (PyInt i) ∨ o' = Delete (PyInt i)
              ∨ ∃ n e a, o' = Update (PyInt i) n e a) →
         let y := run RefEngine.driver o' (RefEngine.at_rest rows nid) in
         no_failure (trace_of y) = true ∧ result_of y = Ret (failure_value o'))
  ∧ (∀ nid,
       let y := run RefEngine.driver ReadAll (RefEngine.at_rest [] nid) in
       no_failure (trace_of y) = true ∧ result_of y = Ret (failure_value ReadAll)).
Proof.
  intros Hfail Hsqla. split; [by apply run_failure_value|]. split.
  - intros rows nid i Hno o' [->|[->|(n & e & a & ->)]]; cbn zeta; cbn [run].
    + unfold fmap_M. rewrite read_user_at_rest, filter_absent by done. done.
    + unfold fmap_M. rewrite delete_user_at_rest. cbn. by rewrite Hno.
    + destruct (decide (supplied_columns n e a = [])) as [Hnil|Hne].
      * apply supplied_columns_nil in Hnil as (-> & -> & ->). done.
      * unfold fmap_M. rewrite update_user_at_rest by done. cbn. by rewrite Hno.
  - intros nid. cbn zeta. cbn [run]. unfold fmap_M.
    by rewrite read_all_users_at_rest.
Qed.

Lemma engine_failure_masked_witness :
  let d := RefEngine.with_faults
             [RefEngine.User 1 (PyStr "Juan") (PyStr "juan@email.com") (PyInt 30)] 2
             [None; Some (Exc SQLAlchemyError "server closed")] in
  existsb ev_failed (trace_of (run RefEngine.driver (Read (PyInt 1)) d)) = true
  ∧ forallb ev_sqla_or_ok (trace_of (run RefEngine.driver (Read (PyInt 1)) d)) = true
  ∧ result_of (run RefEngine.driver (Read (PyInt 1)) d) = Ret (RUser None).
Proof.
  cbn zeta. split; [reflexivity|]. split; [reflexivity|].
  apply (engine_failure_masked RefEngine.driver (Read (PyInt 1))); reflexivity.
Defined.

(** * Further properties *)

(** ** What an operation can raise *)

(** X1.  No [SQLAlchemyError] leaves an operation: whatever any of the six
    operations raises, on any driver, is not an instance of
    [SQLAlchemyError]. *)
Theorem no_sqlalchemy_error_escapes
  {W : Type} (drv : Driver W) (o : operation) (w : W) (e : exc) :
  result_of (run drv o w) = Raise e → isinstance_SQLAlchemyError e = false.
Proof.
  destruct o; op_cases; intros; simplify_eq/=; done.
Qed.

Lemma no_sqlalchemy_error_escapes_witness :
  let x := run RefEngine.driver (Delete (PyInt 1))
             (RefEngine.with_faults [] 1 [None; Some (Exc OtherException "interrupted")]) in
  result_of x = Raise (Exc OtherException "interrupted")
  ∧ isinstance_SQLAlchemyError (Exc OtherException "interrupted") = false.
Proof.
  cbn zeta. split; [reflexivity|].
  apply (no_sqlalchemy_error_escapes RefEngine.driver (Delete (PyInt 1))
           (RefEngine.with_faults [] 1 [None; Some (Exc OtherException "interrupted")])).
  reflexivity.
Defined.

(** The only exception of the dictionary building is the [IndexError] of a
    short row. *)
Lemma user_data_outcome {W : Type} (r : row) (w : W) :
  ∃ o : res params,
    user_data r w = (w, [], o) ∧ ∀ e, o = Raise e → e = index_out_of_range.
Proof.
  rewrite user_data_dict. eexists. split; [done|].
  intros e. by destruct (dict_of_row r); intros; simplify_eq.
Qed.

Lemma collect_users_outcome {W : Type} (rows : list row) (acc : list params) (w : W) :
  ∃ o : res (list params),
    collect_users rows acc w = (w, [], o) ∧ ∀ e, o = Raise e → e = index_out_of_range.
Proof.
  revert acc. induction rows as [|r rows IH]; intros acc; cbn.
  - eexists. by split.
  - unfold bind. destruct (user_data_outcome r w) as ([d|e] & -> & He).
    + destruct (IH (acc ++ [d])) as (o & -> & Ho). by exists o.
    + eexists. split; [done|]. intros e' Heq. apply He. by simplify_eq.
Qed.

(** Case analysis as in [op_cases], keeping what the dictionary building
    can raise. *)
Ltac pure_outcomes :=
  repeat match goal with
    | |- context [collect_users ?rs ?acc ?w] =>
        let o := fresh "o" in let Ho := fresh "Hown" in
        destruct (collect_users_outcome rs acc w) as (o & -> & Ho)
    | |- context [user_data ?r ?w] =>
        let o := fresh "o" in let Ho := fresh "Hown" in
        destruct (user_data_outcome r w) as (o & -> & Ho)
    | H : context [collect_users ?rs ?acc ?w] |- _ =>
        let o := fresh "o" in let Ho := fresh "Hown" in let E := fresh in
        destruct (collect_users_outcome rs acc w) as (o & E & Ho);
        rewrite E in H; clear E
    | H : context [user_data ?r ?w] |- _ =>
        let o := fresh "o" in let Ho := fresh "Hown" in let E := fresh in
        destruct (user_data_outcome r w) as (o & E & Ho);
        rewrite E in H; clear E
    end.

Ltac op_cases_exact :=
  cbn zeta;
  unfold run, fmap_M, trace_of, result_of, world_of, test_connection,
    create_user, read_user, read_all_users, update_user, delete_user,
    try_except;
  repeat match goal with
    | |- context [update_fields ?i ?n ?e ?a] =>
        let E := fresh "Hfields" in
        destruct (update_fields i n e a) as [[|??] ?] eqn:E
    end;
  rewrite ?get_connection_unfold;
  unfold bind, execute, commit, fetched_item, row_item, ret, raise;
  repeat (pure_outcomes; case_match; simplify_eq/=; try done);
  unfold after_close, after_rollback in *;
  repeat (case_match; simplify_eq/=; try done).

(** X2.  Where a raised exception comes from: it is either one that a
    driver call of this very operation raised, or one of the operation's own
    subscript errors ([TypeError] or [IndexError] in [create_user],
    [IndexError] in [read_user] and [read_all_users]); [update_user] and
    [delete_user] raise nothing of their own, and the probe raises
    nothing. *)
Theorem raised_exception_origin
  {W : Type} (drv : Driver W) (o : operation) (w : W) (e : exc) :
  result_of (run drv o w) = Raise e →
  o ≠ Probe
  ∧ (e ∈ own_exceptions o
     ∨ Some e ∈ ev_failure <$> trace_of (run drv o w)).
Proof.
  destruct o; op_cases_exact; intros; simplify_eq/=; (split; [done|]).
  all: rewrite ?fmap_app; cbn; rewrite ?elem_of_app, ?elem_of_cons;
    repeat match goal with
      | H : ∀ e, Raise ?x = Raise e → _ |- _ => specialize (H x eq_refl); subst
      end; auto 8.
Qed.

Lemma raised_exception_origin_witness :
  let x := run RefEngine.driver (Delete (PyInt 1))
             (RefEngine.with_faults [] 1 [None; Some (Exc OtherException "interrupted")]) in
  result_of x = Raise (Exc OtherException "interrupted")
  ∧ Some (Exc OtherException "interrupted") ∈ ev_failure <$> trace_of x.
Proof.
  cbn zeta. split; [reflexivity|].
  destruct (raised_exception_origin RefEngine.driver (Delete (PyInt 1))
              (RefEngine.with_faults [] 1 [None; Some (Exc OtherException "interrupted")])
              (Exc OtherException "interrupted") eq_refl) as [_ [Hown|Hdrv]].
  - by apply elem_of_nil in Hown.
  - exact Hdrv.
Defined.

(** ** One lease, one statement *)

(** X3.  No operation retries or batches: on any driver, a call asks for a
    connection at most once, sends at most one statement, and commits at
    most once. *)
Theorem at_most_one_of_each
  {W : Type} (drv : Driver W) (o : operation) (w : W) :
  let t := trace_of (run drv o w) in
  (calls is_connect t <= 1)%nat ∧ (calls is_execute t <= 1)%nat
  ∧ (calls is_commit t <= 1)%nat.
Proof.
  destruct o; op_cases; unfold calls; rewrite ?List.filter_app; cbn;
    repeat split; lia.
Qed.

Lemma read_only_never_commits
  {W : Type} (drv : Driver W) (o : operation) (w : W) :
  read_only o = true → existsb is_commit (trace_of (run drv o w)) = false.
Proof.
  destruct o; try done; intros _; op_cases; by rewrite ?existsb_app.
Qed.

(** X4.  Commit discipline, on any driver: the operations that only read
    (the probe, [read_user], [read_all_users]) never call [commit]; the
    others call it only once their statement has gone through, and never
    after a driver call has failed.  So either the trace has no commit, or
    the operation is a write and everything before its commit went through,
    the statement included. *)
Theorem commit_only_after_statement
  {W : Type} (drv : Driver W) (o : operation) (w : W) :
  let t := trace_of (run drv o w) in
  existsb is_commit t = false
  ∨ (read_only o = false
     ∧ ∃ before c r after,
         t = before ++ ECommit c r :: after
         ∧ no_failure before = true
         ∧ existsb execute_done before = true).
Proof.
  destruct o; op_cases; rewrite ?existsb_app; cbn;
    first [ by left | right; split; [done|]; by eexists [_; _], _, _, _ ].
Qed.

(** ** What a result says about the commit *)

(** X5.  A write that reports success was committed: when [update_user] or
    [delete_user] returns [True], or [create_user] returns a value other
    than [None], on any driver, then no driver call failed, no rollback was
    issued and the commit went through. *)
Theorem success_means_committed
  {W : Type} (drv : Driver W) (o : operation) (w : W) :
  reports_success o (result_of (run drv o w)) = true →
  no_failure (trace_of (run drv o w)) = true
  ∧ existsb is_rollback (trace_of (run drv o w)) = false
  ∧ existsb commit_done (trace_of (run drv o w)) = true.
Proof.
  destruct o; op_cases; intros; simplify_eq/=; done.
Qed.

Lemma success_means_committed_witness :
  let x := run RefEngine.driver (Create (PyStr "Ana") (PyStr "ana@email.com") (PyInt 41))
             (RefEngine.at_rest [] 1) in
  reports_success (Create (PyStr "Ana") (PyStr "ana@email.com") (PyInt 41)) (result_of x) = true
  ∧ existsb commit_done (trace_of x) = true.
Proof.
  cbn zeta. split; [reflexivity|].
  apply (success_means_committed RefEngine.driver
           (Create (PyStr "Ana") (PyStr "ana@email.com") (PyInt 41))
           (RefEngine.at_rest [] 1)).
  reflexivity.
Defined.

Lemma create_user_close_fails_path
  {W : Type} (drv : Driver W) (nombre email edad : pyval)
  (w w1 w2 w3 w4 : W) (c : conn) (cur : cursor) (v : pyval) (rest : row) (e : exc) :
  d_connect drv w = (w1, Ret c) →
  d_execute drv c insert_text
    (<["edad" := edad]> (<["email" := email]> (<["nombre" := nombre]> ∅))) w1
    = (w2, Ret cur) →
  d_commit drv c w2 = (w3, Ret tt) →
  fetchone cur = Some (v :: rest) →
  d_close drv c w3 = (w4, Raise e) →
  isinstance_SQLAlchemyError e = true →
  create_user drv nombre email edad w =
    (w4, [EConnect (Ret c);
          EExecute c insert_text
            (<["edad" := edad]> (<["email" := email]> (<["nombre" := nombre]> ∅)))
            (Ret cur);
          ECommit c (Ret tt); EClose c (Raise e)],
     Ret PyNone).
Proof.
  intros H1 H2 H3 Hrow H4 He.
  unfold create_user, try_except. rewrite get_connection_unfold, H1.
  unfold bind, execute, commit, fetched_item, row_item, ret.
  rewrite H2; cbn. rewrite H3, Hrow; cbn. rewrite H4; cbn. by rewrite He.
Qed.

(** X6.  The converse fails by design of the order of calls: [create_user]
    commits before it reads the generated key and before the connection is
    closed.  On any driver, when connect, execute and commit work and then
    the close raises an [SQLAlchemyError], [create_user] returns [None]
    although the commit went through; on the reference engine the new row is
    then in the committed table. *)
Theorem create_user_None_after_commit
  {W : Type} (drv : Driver W) (nombre email edad : pyval)
  (w w1 w2 w3 w4 : W) (c : conn) (cur : cursor) (v : pyval) (rest : row) (e : exc) :
  d_connect drv w = (w1, Ret c) →
  d_execute drv c insert_text
    (<["edad" := edad]> (<["email" := email]> (<["nombre" := nombre]> ∅))) w1
    = (w2, Ret cur) →
  d_commit drv c w2 = (w3, Ret tt) →
  fetchone cur = Some (v :: rest) →
  d_close drv c w3 = (w4, Raise e) →
  isinstance_SQLAlchemyError e = true →
  result_of (create_user drv nombre email edad w) = Ret PyNone
  ∧ existsb commit_done (trace_of (create_user drv nombre email edad w)) = true
  ∧ world_of (create_user drv nombre email edad w) = w4
  ∧ (∀ rows nid fs,
       RefEngine.committed
         (world_of (create_user RefEngine.driver nombre email edad
                      (RefEngine.with_faults rows nid
                         (None :: None :: None :: Some e :: fs))))
       = rows ++ [RefEngine.User nid nombre email edad]).
Proof.
  intros H1 H2 H3 Hrow H4 He.
  rewrite (create_user_close_fails_path drv nombre email edad
             w w1 w2 w3 w4 c cur v rest e) by done.
  do 3 (split; [done|]). intros rows nid fs.
  by erewrite create_user_close_fails_path; [|reflexivity..|done].
Qed.

Lemma create_user_None_after_commit_witness :
  let e := Exc SQLAlchemyError "server closed the connection" in
  let x := create_user RefEngine.driver (PyStr "Ana") (PyStr "ana@email.com") (PyInt 41)
             (RefEngine.with_faults [] 1 [None; None; None; Some e]) in
  result_of x = Ret PyNone
  ∧ RefEngine.committed (world_of x)
    = [RefEngine.User 1 (PyStr "Ana") (PyStr "ana@email.com") (PyInt 41)].
Proof.
  cbn zeta.
  pose (e := Exc SQLAlchemyError "server closed the connection").
  pose (u := RefEngine.User 1 (PyStr "Ana") (PyStr "ana@email.com") (PyInt 41)).
  destruct (create_user_None_after_commit RefEngine.driver
              (PyStr "Ana") (PyStr "ana@email.com") (PyInt 41)
              (RefEngine.with_faults [] 1 [None; None; None; Some e])
              (RefEngine.Db [] [] 1 1 [None; None; Some e])
              (RefEngine.Db [] [u] 2 1 [None; Some e])
              (RefEngine.Db [u] [u] 2 1 [Some e])
              (RefEngine.Db [u] [u] 2 1 [])
              0 (Cursor [[PyInt 1]] 1) (PyInt 1) [] e)
    as (Hres & _ & _ & Htable); [reflexivity..|].
  split; [exact Hres|]. exact (Htable [] 1%Z []).
Defined.

(** ** The reference engine between calls *)

Lemma create_user_settled rows nid k (n e a : pyval) :
  create_user RefEngine.driver n e a (settled rows nid k) =
    (settled (rows ++ [RefEngine.User nid n e a]) (nid + 1) (S k),
     [EConnect (Ret k);
      EExecute k insert_text (<["edad" := a]> (<["email" := e]> (<["nombre" := n]> ∅)))
        (Ret (Cursor [[PyInt nid]] 1));
      ECommit k (Ret tt); EClose k (Ret tt)],
     Ret (PyInt nid)).
Proof. erewrite create_user_path; reflexivity. Qed.

Lemma read_user_settled rows nid k (i : Z) :
  read_user RefEngine.driver (PyInt i) (settled rows nid k) =
    (settled rows nid (S k),
     [EConnect (Ret k);
      EExecute k select_by_id_text {[ "user_id" := PyInt i ]}
        (Ret (Cursor
           (RefEngine.user_row <$> filter (fun u => RefEngine.has_key (Some i) u = true) rows)
           (Z.of_nat (length (filter (fun u => RefEngine.has_key (Some i) u = true) rows)))));
      EClose k (Ret tt)],
     Ret (user_dict <$> head (filter (fun u => RefEngine.has_key (Some i) u = true) rows))).
Proof.
  erewrite read_user_path.
  - f_equal; try reflexivity. unfold fetchone. cbn [cur_rows].
    by destruct (filter _ rows).
  - reflexivity.
  - reflexivity.
  - reflexivity.
  - unfold fetchone. cbn [cur_rows]. by destruct (filter _ rows).
Qed.

Lemma read_all_users_settled rows nid k :
  read_all_users RefEngine.driver (settled rows nid k) =
    (settled rows nid (S k),
     [EConnect (Ret k);
      EExecute k select_all_text ∅
        (Ret (Cursor (RefEngine.user_row <$> merge_sort RefEngine.id_le rows)
                (Z.of_nat (length (merge_sort RefEngine.id_le rows)))));
      EClose k (Ret tt)],
     Ret (user_dict <$> merge_sort RefEngine.id_le rows)).
Proof.
  erewrite read_all_users_path; [reflexivity|reflexivity..|].
  apply mapM_user_rows.
Qed.

Lemma update_user_settled rows nid k (i : Z) (n e a : pyval) :
  supplied_columns n e a ≠ [] →
  update_user RefEngine.driver (PyInt i) n e a (settled rows nid k) =
    (settled
       ((fun u => if RefEngine.has_key (Some i) u
                  then with_supplied n e a u else u) <$> rows) nid (S k),
     [EConnect (Ret k);
      EExecute k (statement_text (Update (PyInt i) n e a))
        (list_to_map (supplied_values (Update (PyInt i) n e a)))
        (Ret (Cursor []
           (Z.of_nat (length (filter (fun u => RefEngine.has_key (Some i) u = true) rows)))));
      ECommit k (Ret tt); EClose k (Ret tt)],
     Ret (key_present i rows)).
Proof.
  intros Hne. rewrite <- rowcount_positive.
  destruct n, e, a; try done;
    (erewrite update_user_path; [f_equal; reflexivity|done|reflexivity..]).
Qed.

Lemma delete_user_settled rows nid k (i : Z) :
  delete_user RefEngine.driver (PyInt i) (settled rows nid k) =
    (settled (filter (fun u => RefEngine.has_key (Some i) u = false) rows) nid (S k),
     [EConnect (Ret k);
      EExecute k delete_text {[ "user_id" := PyInt i ]}
        (Ret (Cursor []
           (Z.of_nat (length (filter (fun u => RefEngine.has_key (Some i) u = true) rows)))));
      ECommit k (Ret tt); EClose k (Ret tt)],
     Ret (key_present i rows)).
Proof.
  rewrite <- rowcount_positive.
  erewrite delete_user_path; [f_equal; reflexivity|reflexivity..].
Qed.

Lemma filter_key_app (i : Z) (rows more : list RefEngine.user) :
  key_present i rows = false →
  filter (fun u => RefEngine.has_key (Some i) u = true) (rows ++ more)
  = filter (fun u => RefEngine.has_key (Some i) u = true) more.
Proof. intros Hno. by rewrite filter_app, filter_absent. Qed.

Lemma key_present_filter_out (i : Z) (rows : list RefEngine.user) :
  key_present i (filter (fun u => RefEngine.has_key (Some i) u = false) rows) = false.
Proof.
  induction rows as [|u rows IH]; [done|]. rewrite filter_cons.
  case_decide as Hu; [|done].
  change (bool_decide (RefEngine.u_id u = i)
          || key_present i
               (filter (fun u => RefEngine.has_key (Some i) u = false) rows) = false).
  rewrite IH. cbn [RefEngine.has_key] in Hu. by rewrite Hu.
Qed.

(** ** Round trips on the reference engine *)



(** X8.  Delete then read: after [delete_user] on a key, [read_user] on
    that key returns [None], a second [delete_user] on it returns [False],
    and the rows with other keys are all still there, in their order. *)
Theorem delete_then_read rows nid k (i : Z) :
  let x := delete_user RefEngine.driver (PyInt i) (settled rows nid k) in
  result_of (read_user RefEngine.driver (PyInt i) (world_of x)) = Ret None
  ∧ result_of (delete_user RefEngine.driver (PyInt i) (world_of x)) = Ret false
  ∧ RefEngine.committed (world_of x) = filter (fun u => RefEngine.u_id u ≠ i) rows.
Proof.
  cbn zeta. rewrite delete_user_settled. unfold world_of. cbn [fst].
  rewrite read_user_settled, delete_user_settled.
  rewrite filter_absent by apply key_present_filter_out.
  rewrite key_present_filter_out. do 2 (split; [done|]).
  apply list_filter_iff. intros u. cbn. by rewrite bool_decide_eq_false.
Qed.




(** ** What only a commit changes *)

(** From the outcome of each driver call, the property at the world it
    left, given that the property is kept by each kind of call. *)
Ltac chain_worlds P Hconnect Hexecute Hcommit Hrollback Hclose :=
  repeat match goal with
    | H : d_connect _ ?x = (?y, _), HP : P ?x |- _ =>
        lazymatch goal with
        | _ : P y |- _ => fail
        | _ => assert (P y) by (generalize (Hconnect x HP); by rewrite H)
        end
    | H : d_execute _ ?c ?q ?p ?x = (?y, _), HP : P ?x |- _ =>
        lazymatch goal with
        | _ : P y |- _ => fail
        | _ => assert (P y) by (generalize (Hexecute c q p x HP); by rewrite H)
        end
    | H : d_commit _ ?c ?x = (?y, Raise _), HP : P ?x |- _ =>
        lazymatch goal with
        | _ : P y |- _ => fail
        | _ => assert (P y) by (generalize (Hcommit c x HP); rewrite H; auto)
        end
    | H : d_rollback _ ?c ?x = (?y, _), HP : P ?x |- _ =>
        lazymatch goal with
        | _ : P y |- _ => fail
        | _ => assert (P y) by (generalize (Hrollback c x HP); by rewrite H)
        end
    | H : d_close _ ?c ?x = (?y, _), HP : P ?x |- _ =>
        lazymatch goal with
        | _ : P y |- _ => fail
        | _ => assert (P y) by (generalize (Hclose c x HP); by rewrite H)
        end
    end.

(** A property of the world that connect, execute, rollback, close and a
    failing commit keep is kept by every operation in which no commit went
    through. *)
Lemma run_keeps_without_commit
  {W : Type} (drv : Driver W) (P : W -> Prop) (o : operation) (w : W) :
  (∀ w, P w → P (d_connect drv w).1) →
  (∀ c q p w, P w → P (d_execute drv c q p w).1) →
  (∀ c w, P w → raised (d_commit drv c w).2 = true → P (d_commit drv c w).1) →
  (∀ c w, P w → P (d_rollback drv c w).1) →
  (∀ c w, P w → P (d_close drv c w).1) →
  P w →
  existsb commit_done (trace_of (run drv o w)) = false →
  P (world_of (run drv o w)).
Proof.
  intros Hconnect Hexecute Hcommit Hrollback Hclose HP.
  destruct o; op_cases; rewrite ?existsb_app; cbn; intros Hno; try done.
  all: chain_worlds P Hconnect Hexecute Hcommit Hrollback Hclose; done.
Qed.

Lemma step_committed {A} (f : RefEngine.db -> RefEngine.db * res A) (d : RefEngine.db) :
  (∀ d', RefEngine.committed (f d').1 = RefEngine.committed d') →
  RefEngine.committed (RefEngine.step f d).1 = RefEngine.committed d.
Proof.
  intros Hf. unfold RefEngine.step. destruct d as [cm wk nid k fs]; cbn.
  destruct fs as [|[err|] fs]; [apply Hf|done|apply Hf].
Qed.

(** On the reference engine a statement works on the pending rows only. *)
Lemma execute_committed c q p (d : RefEngine.db) :
  RefEngine.committed (d_execute RefEngine.driver c q p d).1 = RefEngine.committed d.
Proof.
  cbn [d_execute RefEngine.driver]. unfold RefEngine.execute.
  apply step_committed. clear d. intros d.
  destruct (RefEngine.parse q) as [[]|]; cbn [RefEngine.exec_stmt]; try done;
    repeat case_match; done.
Qed.

(** X11.  On the reference engine, from any state and for any fault plan,
    an operation changes the committed table only through a commit that
    went through: when the trace has no such commit the table is the one
    from before, and for the operations that only read (the probe,
    [read_user], [read_all_users]) this is always so. *)
Theorem table_changes_only_by_commit (o : operation) (d : RefEngine.db) :
  read_only o = true
  ∨ existsb commit_done (trace_of (run RefEngine.driver o d)) = false →
  RefEngine.committed (world_of (run RefEngine.driver o d)) = RefEngine.committed d.
Proof.
  intros Hor.
  assert (existsb commit_done (trace_of (run RefEngine.driver o d)) = false) as Hno.
  { destruct Hor as [Hread|Hno]; [|done].
    pose proof (read_only_never_commits RefEngine.driver o d Hread) as Hnever.
    clear -Hnever.
    induction (trace_of (run RefEngine.driver o d)) as [|ev t IH]; [done|].
    cbn in *. apply orb_false_elim in Hnever as [Hev Ht].
    rewrite (IH Ht), orb_false_r. by destruct ev as [| | |? []|]. }
  apply (run_keeps_without_commit RefEngine.driver
           (fun d' => RefEngine.committed d' = RefEngine.committed d)); try done.
  - intros d' Hd'. cbn [d_connect RefEngine.driver]. unfold RefEngine.connect.
    by rewrite step_committed.
  - intros c q p d' Hd'. by rewrite execute_committed.
  - intros c d' Hd'. cbn [d_commit RefEngine.driver]. unfold RefEngine.commit, RefEngine.step.
    destruct d' as [cm wk nid k fs]; cbn. by destruct fs as [|[err|] fs].
  - intros c d' Hd'. cbn [d_rollback RefEngine.driver]. unfold RefEngine.rollback.
    by rewrite step_committed.
  - intros c d' Hd'. cbn [d_close RefEngine.driver]. unfold RefEngine.close.
    by rewrite step_committed.
Qed.

Lemma table_changes_only_by_commit_witness :
  let d := RefEngine.with_faults
             [RefEngine.User 1 (PyStr "Juan") (PyStr "juan@email.com") (PyInt 30)] 2
             [None; None; Some (Exc SQLAlchemyError "could not serialize")] in
  existsb commit_done (trace_of (run RefEngine.driver (Delete (PyInt 1)) d)) = false
  ∧ RefEngine.committed (world_of (run RefEngine.driver (Delete (PyInt 1)) d))
    = [RefEngine.User 1 (PyStr "Juan") (PyStr "juan@email.com") (PyInt 30)].
Proof.
  cbn zeta. split; [reflexivity|].
  apply (table_changes_only_by_commit (Delete (PyInt 1))
           (RefEngine.with_faults
              [RefEngine.User 1 (PyStr "Juan") (PyStr "juan@email.com") (PyInt 30)] 2
              [None; None; Some (Exc SQLAlchemyError "could not serialize")])).
  right. reflexivity.
Defined.

(** ** Which exception leaves a lease *)

(** X12.  What [get_connection] gives back, for any block and driver.  When
    the connect fails the block is not run and that exception is raised.
    Otherwise an exception raised by [close] replaces everything: the value
    the block returned, or the exception it raised; failing that, an
    exception raised by [rollback] replaces the one the block raised;
    failing both, the block's own value or exception comes out. *)
Theorem get_connection_exception_precedence
  {W A : Type} (drv : Driver W) (body : conn -> M A) (w : W) :
  match d_connect drv w with
  | (w1, Raise e) => get_connection drv body w = (w1, [EConnect (Raise e)], Raise e)
  | (w1, Ret c) =>
      let '(w2, tb, rb) := body c w1 in
      let rr := (d_rollback drv c w2).2 in
      let w3 := if raised rb then (d_rollback drv c w2).1 else w2 in
      result_of (get_connection drv body w) =
        match (d_close drv c w3).2 with
        | Raise e2 => Raise e2
        | Ret _ =>
            match rb with
            | Ret a => Ret a
            | Raise e => match rr with Raise e1 => Raise e1 | Ret _ => Raise e end
            end
        end
  end.
Proof.
  rewrite get_connection_unfold.
  destruct (d_connect drv w) as [w1 [c|e]]; [|done].
  destruct (body c w1) as [[w2 tb] [a|e]]; cbn.
  - by destruct (d_close drv c w2) as [w3 [[]|e2]].
  - destruct (d_rollback drv c w2) as [w3 [[]|e1]]; cbn;
      by destruct (d_close drv c w3) as [w4 [[]|e2]].
Qed.

(** ** The layer beside the console *)

Section Console.

Context {W : Type} (drv : Driver W).

Lemma silent_ret {A} (a : A) : silent (W:=W) (ret a) (ret a).
Proof. done. Qed.

Lemma silent_raise {A} (e : exc) : silent (W:=W) (raise (A:=A) e) (raise e).
Proof. done. Qed.

Lemma silent_bind {A B} (m' : @M (W * list printed) A) (m : @M W A)
  (k' : A -> @M (W * list printed) B) (k : A -> @M W B) :
  silent m' m → (∀ a, silent (k' a) (k a)) → silent (bind m' k') (bind m k).
Proof.
  intros Hm Hk w out. unfold bind. rewrite Hm. unfold beside.
  destruct (m w) as [[w1 t1] [a|e]]; cbn; [|done].
  rewrite Hk. unfold beside. by destruct (k a w1) as [[w2 t2] r].
Qed.

Lemma silent_try_except_ret {A} (m' : @M (W * list printed) A) (m : @M W A)
  (accepts : exc -> bool) (a : A) :
  silent m' m →
  silent (try_except m' [(accepts, fun _ => ret a)])
         (try_except m [(accepts, fun _ => ret a)]).
Proof.
  intros Hm w out. unfold try_except. rewrite Hm. unfold beside.
  destruct (m w) as [[w1 t1] [x|e]]; cbn; [done|]. by destruct (accepts e).
Qed.

Lemma silent_execute c q p : silent (execute (with_console drv) c q p) (execute drv c q p).
Proof. intros w out. unfold execute, beside. cbn. by destruct (d_execute drv c q p w). Qed.

Lemma silent_commit c : silent (commit (with_console drv) c) (commit drv c).
Proof. intros w out. unfold commit, beside. cbn. by destruct (d_commit drv c w). Qed.

Lemma silent_get_connection {A} (body' : conn -> @M (W * list printed) A)
  (body : conn -> @M W A) :
  (∀ c, silent (body' c) (body c)) →
  silent (get_connection (with_console drv) body') (get_connection drv body).
Proof.
  intros Hbody w out. rewrite !get_connection_unfold. unfold beside. cbn.
  destruct (d_connect drv w) as [w1 [c|e]]; cbn; [|done].
  rewrite Hbody. unfold beside.
  destruct (body c w1) as [[w2 tb] [a|e]]; cbn.
  - by destruct (d_close drv c w2) as [w3 rc].
  - destruct (d_rollback drv c w2) as [w3 rr]; cbn.
    by destruct (d_close drv c w3) as [w4 rc].
Qed.

Lemma silent_row_item (r : row) (i : nat) : silent (W:=W) (row_item r i) (row_item r i).
Proof. intros w out. unfold row_item. by destruct (r !! i). Qed.

Lemma silent_fetched_item (o : option row) (i : nat) :
  silent (W:=W) (fetched_item o i) (fetched_item o i).
Proof. destruct o; [apply silent_row_item|done]. Qed.

Lemma silent_user_data (r : row) : silent (W:=W) (user_data r) (user_data r).
Proof. intros w out. by rewrite !user_data_dict. Qed.

Lemma silent_collect_users (rows : list row) (acc : list params) :
  silent (W:=W) (collect_users rows acc) (collect_users rows acc).
Proof.
  revert acc. induction rows as [|r rows IH]; intros acc; [done|].
  cbn. apply silent_bind; [apply silent_user_data|]. intros d. apply IH.
Qed.

Lemma silent_test_connection :
  silent (test_connection (with_console drv)) (test_connection drv).
Proof.
  unfold test_connection. apply silent_try_except_ret.
  apply silent_get_connection. intros c.
  apply silent_bind; [apply silent_execute|]. intros cur.
  apply silent_bind; [apply silent_fetched_item|]. intros v. apply silent_ret.
Qed.

Lemma silent_create_user (n e a : pyval) :
  silent (create_user (with_console drv) n e a) (create_user drv n e a).
Proof.
  unfold create_user. apply silent_try_except_ret.
  apply silent_get_connection. intros c.
  apply silent_bind; [apply silent_execute|]. intros cur.
  apply silent_bind; [apply silent_commit|]. intros _.
  apply silent_bind; [apply silent_fetched_item|]. intros v. apply silent_ret.
Qed.

Lemma silent_read_user (i : pyval) :
  silent (read_user (with_console drv) i) (read_user drv i).
Proof.
  unfold read_user. apply silent_try_except_ret.
  apply silent_get_connection. intros c.
  apply silent_bind; [apply silent_execute|]. intros cur.
  destruct (fetchone cur) as [r|]; [|apply silent_ret].
  destruct (row_truth r); [|apply silent_ret].
  apply silent_bind; [apply silent_user_data|]. intros d. apply silent_ret.
Qed.

Lemma silent_read_all_users :
  silent (read_all_users (with_console drv)) (read_all_users drv).
Proof.
  unfold read_all_users. apply silent_try_except_ret.
  apply silent_get_connection. intros c.
  apply silent_bind; [apply silent_execute|]. intros cur.
  apply silent_collect_users.
Qed.

Lemma silent_update_user (i n e a : pyval) :
  silent (update_user (with_console drv) i n e a) (update_user drv i n e a).
Proof.
  unfold update_user. apply silent_try_except_ret.
  destruct (update_fields i n e a) as [[|u us] p]; [apply silent_ret|].
  apply silent_get_connection. intros c.
  apply silent_bind; [apply silent_execute|]. intros cur.
  apply silent_bind; [apply silent_commit|]. intros _.
  destruct (_ <? _)%Z; apply silent_ret.
Qed.

Lemma silent_delete_user (i : pyval) :
  silent (delete_user (with_console drv) i) (delete_user drv i).
Proof.
  unfold delete_user. apply silent_try_except_ret.
  apply silent_get_connection. intros c.
  apply silent_bind; [apply silent_execute|]. intros cur.
  apply silent_bind; [apply silent_commit|]. intros _.
  destruct (_ <? _)%Z; apply silent_ret.
Qed.

End Console.

(** ** Sequences of operations *)

Lemma sequential_app (opened : option conn) (t1 t2 : trace) :
  sequential opened t1 = true →
  sequential opened (t1 ++ t2) = sequential None t2.
Proof.
  revert opened. induction t1 as [|ev t1 IH]; intros opened; cbn.
  - by destruct opened.
  - destruct opened as [c|], ev as [[c'|e]|c' q p r|c' r|c' r|c' r]; try done;
      try (intros [-> Ht]%andb_prop; cbn; by apply IH); by apply IH.
Qed.

Lemma lease_tail_sequential (c : conn) (t : trace) :
  lease_tail c t = true → sequential (Some c) t = true.
Proof.
  induction t as [|ev t IH]; [done|]. cbn.
  destruct ev as [r|c' q p r|c' r|c' r|c' r]; try done.
  - intros [[-> Ht]%andb_prop _]%andb_prop. cbn. by apply IH.
  - intros [[-> Ht]%andb_prop _]%andb_prop. cbn. by apply IH.
  - intros [-> Ht]%andb_prop. cbn.
    destruct t as [|[| | | |c'' r''] [|]]; try done. cbn. by rewrite Ht.
  - intros [-> Ht]%andb_prop. cbn. apply bool_decide_eq_true in Ht. by subst.
Qed.

Lemma lease_ok_sequential (t : trace) :
  lease_ok t = true → sequential None t = true.
Proof.
  destruct t as [|[[c|e]| | | |] t]; try done; cbn.
  - apply lease_tail_sequential.
  - intros Ht. apply bool_decide_eq_true in Ht. by subst.
Qed.

Section Tidy.

Context {W : Type}.

Lemma tidy_ret {A} (a : A) : tidy (W:=W) (ret a).
Proof. done. Qed.

Lemma tidy_raise {A} (e : exc) : tidy (W:=W) (raise (A:=A) e).
Proof. done. Qed.

Lemma tidy_print (x : printed) : tidy (print (W:=W) x).
Proof. done. Qed.

Lemma tidy_bind {A B} (m : @M W A) (k : A -> @M W B) :
  tidy m → (∀ a, tidy (k a)) → tidy (bind m k).
Proof.
  intros Hm Hk w. specialize (Hm w). unfold bind, trace_of in *.
  destruct (m w) as [[w1 t1] [a|e]]; cbn in *; [|done].
  specialize (Hk a w1). destruct (k a w1) as [[w2 t2] r]; cbn in *.
  by rewrite sequential_app.
Qed.

Lemma tidy_try_except_ret {A} (m : @M W A) (accepts : exc -> bool) (a : A) :
  tidy m → tidy (try_except m [(accepts, fun _ => ret a)]).
Proof.
  intros Hm w. specialize (Hm w). unfold try_except, trace_of in *.
  destruct (m w) as [[w1 t1] [x|e]]; cbn in *; [done|].
  destruct (accepts e); cbn; [|done]. by rewrite app_nil_r.
Qed.

Lemma tidy_run (drv : Driver W) (o : operation) : tidy (run drv o).
Proof. intros w. apply lease_ok_sequential, run_lease_ok. Qed.

Lemma tidy_fmap {A B} (f : A -> B) (m : @M W A) : tidy (fmap_M f m) → tidy m.
Proof.
  intros Hm w. specialize (Hm w). unfold fmap_M, trace_of in *.
  by destruct (m w) as [[w1 t1] [x|e]].
Qed.

End Tidy.

Lemma tidy_print_users {W : Type} (users : list params) : tidy (print_users (W:=W) users).
Proof.
  induction users as [|u users IH]; [apply tidy_ret|].
  cbn. apply tidy_bind; [apply tidy_print|]. intros _. apply IH.
Qed.

(** ** main.py *)

(** X13.  In [main], at most one connection is open at any time: over any
    engine, whatever fails on the way, a connection is asked for only after
    the one before was closed, every statement, commit and rollback is on
    the connection that is open, and none is open when [main] returns. *)
Theorem main_one_connection_at_a_time
  {W : Type} (create_engine : string -> pool_options -> res (Driver W))
  (s : W * list printed) :
  sequential None (trace_of (main create_engine s)) = true.
Proof.
  revert s. change (tidy (main create_engine)). unfold main.
  apply tidy_try_except_ret.
  destruct (PostgreSQLConnection_init _ _ _ _ _ _) as [db|e]; [|apply tidy_raise].
  cbn zeta.
  apply tidy_bind; [apply (tidy_fmap RBool), (tidy_run _ Probe)|]. intros ok.
  destruct ok; cbn [negb]; [|apply tidy_ret].
  repeat first
    [ apply tidy_ret
    | apply tidy_print
    | apply tidy_print_users
    | apply (tidy_fmap RVal), (tidy_run _ (Create _ _ _))
    | apply (tidy_fmap RUser), (tidy_run _ (Read _))
    | apply (tidy_fmap RUsers), (tidy_run _ ReadAll)
    | apply (tidy_fmap RBool), (tidy_run _ (Update _ _ _ _))
    | apply (tidy_fmap RBool), (tidy_run _ (Delete _))
    | (apply tidy_bind; [|intros ?])
    | match goal with |- tidy (if ?b then _ else _) => destruct b end ].
Qed.

(** ** The connection URL *)

Lemma append_assoc (a b c : string) : (a +:+ b) +:+ c = a +:+ (b +:+ c).
Proof.
  induction a as [|x a IH]; [done|].
  change (String x ((a +:+ b) +:+ c) = String x (a +:+ (b +:+ c))).
  by rewrite IH.
Qed.

(** X14.  The URL is put together without escaping its parts, so it does
    not say where the user name ends and the password begins, nor where the
    password ends and the host begins: a user name [u:p1] with password
    [p2] gives the same URL, and so the same engine or the same failure, as
    user name [u] with password [p1:p2]; and a password [p@h1] with host
    [h2] the same as password [p] with host [h1@h2]. *)
Theorem connection_url_not_escaped
  {W : Type} (create_engine : string -> pool_options -> res (Driver W))
  (port : Z) (database u p1 p2 h1 h2 : string) :
  let outcome (r : res (PostgreSQLConnection W)) :=
    match r with
    | Ret db => Ret (connection_url db, engine db)
    | Raise e => Raise e
    end in
  outcome (PostgreSQLConnection_init create_engine h2 port database
             (u +:+ ":" +:+ p1) p2)
  = outcome (PostgreSQLConnection_init create_engine h2 port database
               u (p1 +:+ ":" +:+ p2))
  ∧ outcome (PostgreSQLConnection_init create_engine h2 port database
               u (p1 +:+ "@" +:+ h1))
    = outcome (PostgreSQLConnection_init create_engine (h1 +:+ "@" +:+ h2) port database
                 u p1).
Proof.
  cbn zeta. unfold PostgreSQLConnection_init, _create_engine.
  rewrite !append_assoc. split.
  - by destruct (create_engine _ _).
  - by destruct (create_engine _ _).
Qed.

(** ** main.py: when there is no connection *)

Lemma try_except_all_returns {W : Type} (m : @M W unit) (w : W) :
  result_of (try_except m [(isinstance_Exception, fun _ => ret tt)] w) = Ret tt.
Proof. unfold try_except, result_of. by destruct (m w) as [[w1 t1] [[]|e]]. Qed.

(** X15.  [main] never raises.  When the engine cannot be created it makes
    no driver call and prints nothing; when the probe returns [False] its
    driver calls are those of the probe alone, so no statement of the CRUD
    methods is sent, and it prints nothing. *)
Theorem main_stops_without_connection
  {W : Type} (create_engine : string -> pool_options -> res (Driver W))
  (w : W) (out : list printed) :
  let x := main create_engine (w, out) in
  result_of x = Ret tt
  ∧ match PostgreSQLConnection_init create_engine
            "localhost" 5432 "testdb" "postgres" "admin1234" with
    | Raise e => x = ((w, out), [], Ret tt)
    | Ret db =>
        result_of (test_connection (engine db) w) = Ret false →
        x = ((world_of (test_connection (engine db) w), out),
             trace_of (test_connection (engine db) w), Ret tt)
    end.
Proof.
  cbn zeta. split; [apply try_except_all_returns|].
  unfold main.
  destruct (PostgreSQLConnection_init _ _ _ _ _ _) as [db|e]; [|done].
  cbn zeta. intros Hprobe. unfold try_except, bind.
  rewrite silent_test_connection. unfold beside, result_of, world_of, trace_of in *.
  destruct (test_connection (engine db) w) as [[w1 t1] r]; cbn in *. subst r.
  cbn. by rewrite app_nil_r.
Qed.

Lemma main_stops_without_connection_witness :
  let unreachable := Exc SQLAlchemyError "could not connect to server" in
  let x := main (fun _ _ => Ret RefEngine.driver)
             (RefEngine.with_faults [] 1 [Some unreachable], []) in
  result_of (test_connection RefEngine.driver
               (RefEngine.with_faults [] 1 [Some unreachable])) = Ret false
  ∧ trace_of x = [EConnect (Raise unreachable)]
  ∧ (world_of x).2 = [].
Proof.
  cbn zeta. split; [reflexivity|].
  pose proof (main_stops_without_connection (fun _ _ => Ret RefEngine.driver)
                (RefEngine.with_faults [] 1
                   [Some (Exc SQLAlchemyError "could not connect to server")]) [])
    as [_ Hstop].
  cbn zeta in Hstop. specialize (Hstop eq_refl). rewrite Hstop. by split.
Defined.

(** ** main.py on the reference engine *)

Lemma bind_run {W A B : Type} (m : @M W A) (k : A -> @M W B)
  (s s1 s2 : W) (t1 t2 : trace) (a : A) (r : res B) :
  m s = (s1, t1, Ret a) → k a s1 = (s2, t2, r) → bind m k s = (s2, t1 ++ t2, r).
Proof. intros Hm Hk. unfold bind. by rewrite Hm, Hk. Qed.

Lemma try_except_run {W A : Type} (m : @M W A) (hs : list ((exc -> bool) * (exc -> @M W A)))
  (s s1 : W) (t1 : trace) (a : A) :
  m s = (s1, t1, Ret a) → try_except m hs s = (s1, t1, Ret a).
Proof. intros Hm. unfold try_except. by rewrite Hm. Qed.

Lemma print_users_run {W : Type} (users : list params) (w : W) (out : list printed) :
  print_users users (w, out)
  = ((w, out ++ ((fun u => PDict "  - " (Some u)) <$> users)), [], Ret tt).
Proof.
  revert out. induction users as [|u users IH]; intros out; cbn.
  - by rewrite app_nil_r.
  - unfold bind, print. cbn. rewrite IH. by rewrite <- app_assoc.
Qed.

Lemma truth_key (z : Z) : z ≠ 0%Z → truth (PyInt z) = true.
Proof. intros Hz. cbn. by apply negb_true_iff, Z.eqb_neq. Qed.

Lemma dict_truth_user (u : RefEngine.user) : dict_truth (Some (user_dict u)) = true.
Proof.
  cbn. apply negb_true_iff, bool_decide_eq_false. unfold user_dict.
  apply insert_non_empty.
Qed.

Lemma update_absent (i : Z) (f : RefEngine.user -> RefEngine.user)
  (rows : list RefEngine.user) :
  key_present i rows = false →
  (fun u => if RefEngine.has_key (Some i) u then f u else u) <$> rows = rows.
Proof.
  induction rows as [|u rows IH]; [done|]. intros Hno.
  cbn in Hno. apply orb_false_elim in Hno as [Hu Hrows].
  rewrite fmap_cons, (IH Hrows). cbn [RefEngine.has_key]. by rewrite Hu.
Qed.

Lemma delete_absent (i : Z) (rows : list RefEngine.user) :
  key_present i rows = false →
  filter (fun u => RefEngine.has_key (Some i) u = false) rows = rows.
Proof.
  induction rows as [|u rows IH]; [done|]. intros Hno.
  cbn in Hno. apply orb_false_elim in Hno as [Hu Hrows].
  rewrite filter_cons, (IH Hrows). cbn [RefEngine.has_key].
  by rewrite decide_True.
Qed.

Lemma filter_key_hit (i : Z) (u : RefEngine.user) (rows : list RefEngine.user) :
  RefEngine.u_id u = i →
  filter (fun u => RefEngine.has_key (Some i) u = true) (u :: rows)
  = u :: filter (fun u => RefEngine.has_key (Some i) u = true) rows.
Proof.
  intros Hu. rewrite filter_cons, decide_True; [done|].
  by apply bool_decide_eq_true.
Qed.

Lemma filter_key_miss (i : Z) (u : RefEngine.user) (rows : list RefEngine.user) :
  RefEngine.u_id u ≠ i →
  filter (fun u => RefEngine.has_key (Some i) u = true) (u :: rows)
  = filter (fun u => RefEngine.has_key (Some i) u = true) rows.
Proof.
  intros Hu. rewrite filter_cons, decide_False; [done|].
  cbn [RefEngine.has_key]. by rewrite bool_decide_false.
Qed.

Lemma filter_out_hit (i : Z) (u : RefEngine.user) (rows : list RefEngine.user) :
  RefEngine.u_id u = i →
  filter (fun u => RefEngine.has_key (Some i) u = false) (u :: rows)
  = filter (fun u => RefEngine.has_key (Some i) u = false) rows.
Proof.
  intros Hu. rewrite filter_cons, decide_False; [done|].
  cbn [RefEngine.has_key]. by rewrite bool_decide_true.
Qed.

Lemma filter_out_miss (i : Z) (u : RefEngine.user) (rows : list RefEngine.user) :
  RefEngine.u_id u ≠ i →
  filter (fun u => RefEngine.has_key (Some i) u = false) (u :: rows)
  = u :: filter (fun u => RefEngine.has_key (Some i) u = false) rows.
Proof.
  intros Hu. rewrite filter_cons, decide_True; [done|].
  by apply bool_decide_eq_false.
Qed.

Lemma key_present_here (i : Z) (u : RefEngine.user) (rows : list RefEngine.user) :
  u ∈ rows → RefEngine.u_id u = i → key_present i rows = true.
Proof.
  intros Hin Hu. apply existsb_exists. exists u. split.
  - by apply list_elem_of_In.
  - by apply bool_decide_eq_true.
Qed.

Lemma key_present_app (i : Z) (rows more : list RefEngine.user) :
  key_present i (rows ++ more) = key_present i rows || key_present i more.
Proof. unfold key_present. apply existsb_app. Qed.


Lemma test_connection_settled rows nid k :
  test_connection RefEngine.driver (settled rows nid k) =
    (settled rows nid (S k),
     [EConnect (Ret k);
      EExecute k "SELECT version()" ∅
        (Ret (Cursor [[PyStr "PostgreSQL (reference engine)"]] 1));
      EClose k (Ret tt)],
     Ret true).
Proof. reflexivity. Qed.

Lemma print_run {W : Type} (x : printed) (w : W) (out : list printed) :
  print x (w, out) = ((w, out ++ [x]), [], Ret tt).
Proof. reflexivity. Qed.

(** A call of the layer beside the console, given what it does on the
    engine alone. *)
Lemma silent_run {W A : Type} (m' : @M (W * list printed) A) (m : @M W A)
  (w w' : W) (t : trace) (r : res A) (out : list printed) :
  silent m' m → m w = (w', t, r) → m' (w, out) = ((w', out), t, r).
Proof. intros Hs Hm. by rewrite Hs, Hm. Qed.

(** X16.  [main] on the reference engine at rest, with an engine that
    could be created, a positive next key and no stored row having one of
    the next three keys: it returns normally with no failed call; it sends
    ten statements, in the order of the script; the rows it leaves are the
    ones from before, then Juan's row and Maria's row with the new name and
    age (Carlos's row is created and deleted again); and it prints the
    headings, the row read back after the first insert, both listings in
    ascending order of key, the row read back after the update, and the
    line about the deleted key. *)
Theorem main_on_reference_engine
  (rows : list RefEngine.user) (nid : Z) (k : nat) (out : list printed) :
  (0 < nid)%Z →
  key_present nid rows = false →
  key_present (nid + 1) rows = false →
  key_present (nid + 2) rows = false →
  let juan := RefEngine.User nid (PyStr "Juan Pérez") (PyStr "juan@email.com") (PyInt 30) in
  let maria := RefEngine.User (nid + 1) (PyStr "María García")
                 (PyStr "maria@email.com") (PyInt 25) in
  let maria' := RefEngine.User (nid + 1) (PyStr "María Fernández")
                  (PyStr "maria@email.com") (PyInt 26) in
  let carlos := RefEngine.User (nid + 2) (PyStr "Carlos López")
                  (PyStr "carlos@email.com") (PyInt 35) in
  let listing (us : list RefEngine.user) :=
    (fun u => PDict "  - " (Some (user_dict u))) <$> merge_sort RefEngine.id_le us in
  let x := main (fun _ _ => Ret RefEngine.driver) (settled rows nid k, out) in
  result_of x = Ret tt
  ∧ no_failure (trace_of x) = true
  ∧ statement_texts (trace_of x)
    = ["SELECT version()"; insert_text; insert_text; insert_text;
       select_by_id_text; select_all_text;
       statement_text (Update (PyInt (nid + 1)) (PyStr "María Fernández") PyNone (PyInt 26));
       select_by_id_text; delete_text; select_all_text]
  ∧ (world_of x).1 = settled (rows ++ [juan; maria']) (nid + 3) (10 + k)
  ∧ (world_of x).2
    = out
      ++ [PText (nl +:+ "=== DEMOSTRACIÓN CRUD ===");
          PText (nl +:+ "1. Creando usuarios...");
          PText (nl +:+ "2. Leyendo usuario específico...");
          PDict "Usuario encontrado: " (Some (user_dict juan));
          PText (nl +:+ "3. Leyendo todos los usuarios...")]
      ++ listing (rows ++ [juan; maria; carlos])
      ++ [PText (nl +:+ "4. Actualizando usuario...");
          PDict "Usuario actualizado: " (Some (user_dict maria'));
          PText (nl +:+ "5. Eliminando usuario...");
          PVal "Usuario " (PyInt (nid + 2)) " eliminado exitosamente";
          PText (nl +:+ "6. Usuarios restantes:")]
      ++ listing (rows ++ [juan; maria']).
Proof.
  intros Hpos H0 H1 H2. cbn zeta.
  set (juan := RefEngine.User nid (PyStr "Juan Pérez") (PyStr "juan@email.com") (PyInt 30)).
  set (maria := RefEngine.User (nid + 1) (PyStr "María García")
                  (PyStr "maria@email.com") (PyInt 25)).
  set (maria' := RefEngine.User (nid + 1) (PyStr "María Fernández")
                   (PyStr "maria@email.com") (PyInt 26)).
  set (carlos := RefEngine.User (nid + 2) (PyStr "Carlos López")
                   (PyStr "carlos@email.com") (PyInt 35)).
  assert (Hk0 : nid ≠ 0%Z) by lia.
  assert (Hk1 : (nid + 1)%Z ≠ 0%Z) by lia.
  assert (Hk2 : (nid + 2)%Z ≠ 0%Z) by lia.
  eassert (main (fun _ _ => Ret RefEngine.driver) (settled rows nid k, out) = _) as ->.
  { unfold main. apply try_except_run.
    change (PostgreSQLConnection_init _ _ _ _ _ _) with
      (Ret (A:=PostgreSQLConnection RefEngine.db)
         {| host := "localhost"; port := 5432; database := "testdb";
            username := "postgres"; password := "admin1234";
            connection_url :=
              "postgresql+psycopg2://" +:+ "postgres" +:+ ":" +:+ "admin1234" +:+ "@"
              +:+ "localhost" +:+ ":" +:+ pretty 5432%Z +:+ "/" +:+ "testdb";
            engine := RefEngine.driver |}).
    cbv beta iota zeta. cbn [engine].
    eapply bind_run;
      [eapply silent_run; [apply silent_test_connection|apply test_connection_settled]
      |cbv beta].
    cbn [negb].
    eapply bind_run; [apply print_run|cbv beta].
    eapply bind_run; [apply print_run|cbv beta].
    eapply bind_run;
      [eapply silent_run; [apply silent_create_user|apply create_user_settled]|cbv beta].
    eapply bind_run;
      [eapply silent_run; [apply silent_create_user|apply create_user_settled]|cbv beta].
    eapply bind_run;
      [eapply silent_run; [apply silent_create_user|apply create_user_settled]|cbv beta].
    replace (nid + 1 + 1)%Z with (nid + 2)%Z by lia.
    replace (nid + 2 + 1)%Z with (nid + 3)%Z by lia.
    fold juan maria carlos. rewrite <- !app_assoc. cbn [app].
    eapply bind_run; [apply print_run|cbv beta].
    eapply bind_run.
    { rewrite truth_key by done.
      eapply bind_run;
        [eapply silent_run; [apply silent_read_user|apply read_user_settled]|cbv beta].
      rewrite filter_key_app by done.
      rewrite filter_key_hit, !filter_key_miss, filter_nil by (cbn; lia).
      change (user_dict <$> head [juan]) with (Some (user_dict juan)).
      rewrite dict_truth_user. apply print_run. }
    cbv beta.
    eapply bind_run; [apply print_run|cbv beta].
    eapply bind_run;
      [eapply silent_run; [apply silent_read_all_users|apply read_all_users_settled]
      |cbv beta].
    eapply bind_run; [apply print_users_run|cbv beta].
    eapply bind_run; [apply print_run|cbv beta].
    eapply bind_run.
    { rewrite truth_key by done.
      eapply bind_run;
        [eapply silent_run; [apply silent_update_user|by apply update_user_settled]
        |cbv beta].
      rewrite (key_present_here (nid + 1) maria) by (by set_solver).
      rewrite fmap_app, update_absent by done.
      change ((fun u => if RefEngine.has_key (Some (nid + 1)%Z) u
                        then with_supplied (PyStr "María Fernández") PyNone (PyInt 26) u
                        else u) <$> [juan; maria; carlos])
        with [if bool_decide (nid = nid + 1)%Z
              then with_supplied (PyStr "María Fernández") PyNone (PyInt 26) juan
              else juan;
              if bool_decide (nid + 1 = nid + 1)%Z then maria' else maria;
              if bool_decide (nid + 2 = nid + 1)%Z
              then with_supplied (PyStr "María Fernández") PyNone (PyInt 26) carlos
              else carlos].
      rewrite (bool_decide_false (nid = nid + 1)%Z) by lia.
      rewrite (bool_decide_true (nid + 1 = nid + 1)%Z) by done.
      rewrite (bool_decide_false (nid + 2 = nid + 1)%Z) by lia.
      eapply bind_run;
        [eapply silent_run; [apply silent_read_user|apply read_user_settled]|cbv beta].
      rewrite filter_key_app by done.
      rewrite filter_key_miss, filter_key_hit, filter_key_miss, filter_nil by (cbn; lia).
      change (user_dict <$> head [maria']) with (Some (user_dict maria')).
      apply print_run. }
    cbv beta.
    eapply bind_run; [apply print_run|cbv beta].
    eapply bind_run.
    { rewrite truth_key by done.
      eapply bind_run;
        [eapply silent_run; [apply silent_delete_user|apply delete_user_settled]
        |cbv beta].
      rewrite (key_present_here (nid + 2) carlos) by (by set_solver).
      rewrite filter_app, delete_absent by done.
      rewrite !filter_out_miss, filter_out_hit, filter_nil by (cbn; lia).
      apply print_run. }
    cbv beta.
    eapply bind_run; [apply print_run|cbv beta].
    eapply bind_run;
      [eapply silent_run; [apply silent_read_all_users|apply read_all_users_settled]
      |cbv beta].
    apply print_users_run. }
  unfold result_of, trace_of, world_of. cbn [fst snd].
  split; [reflexivity|].
  split; [reflexivity|].
  split; [reflexivity|].
  split; [reflexivity|].
  rewrite <- !list_fmap_compose, <- !app_assoc. reflexivity.
Qed.

Lemma main_on_reference_engine_witness :
  let x := main (fun _ _ => Ret RefEngine.driver) (settled [] 1 0, []) in
  key_present 1 [] = false
  ∧ result_of x = Ret tt
  ∧ (world_of x).1
    = settled [RefEngine.User 1 (PyStr "Juan Pérez") (PyStr "juan@email.com") (PyInt 30);
               RefEngine.User 2 (PyStr "María Fernández") (PyStr "maria@email.com")
                 (PyInt 26)] 4 10.
Proof.
  cbn zeta. split; [reflexivity|].
  destruct (main_on_reference_engine [] 1 0 []) as (Hres & _ & _ & Hworld & _);
    [lia|reflexivity..|].
  split; [exact Hres|exact Hworld].
Defined.
